(** * express-sensible: request context propagation

    A shallow embedding of the three TypeScript sources of the library
    (the type declarations, [context/async-context.ts], [context/logger.ts]
    and [context/globals.ts]) together with the properties of the
    specification that were checked against them.

    JavaScript objects are cells of a heap indexed by references; a function
    that reads or mutates objects is a function from the world (heap, the
    value held by the [AsyncLocalStorage] instance, the console) to an
    outcome.  Readings of the environment ([Date.now()],
    [new Date().toISOString()], [Math.random().toString(36)]) are explicit
    arguments of the functions that perform them. *)

From Stdlib Require Import ZArith String Ascii DecimalString DecimalZ DecimalPos.
From stdpp Require Import gmap strings list fin_maps.

Local Open Scope string_scope.

(** ** The JavaScript runtime: values and the built-ins the sources call *)

Module Js.

(** Object references. *)
Definition loc := positive.

(** Values of type [unknown].  Numbers are restricted to the integers
    ([JsBigInt] is a [bigint]); an object is known by its reference. *)
Inductive JsValue : Type :=
| JsUndefined
| JsNull
| JsBoolean (b : bool)
| JsNumber (n : Z)
| JsBigInt (n : Z)
| JsString (s : string)
| JsRef (l : loc).

#[global] Instance JsValue_eq_dec : EqDecision JsValue.
Proof. solve_decision. Defined.

(** [a || b] where [a : string | undefined]: the empty string and
    [undefined] are the two falsy values of that type. *)
Definition or_else {B : Type} (inj : string → B) (a : option string) (b : B) : B :=
  match a with
  | Some s => if String.eqb s "" then b else inj s
  | None => b
  end.

(** [String.prototype.toUpperCase] on the ASCII range. *)
Definition upper_ascii (c : ascii) : ascii :=
  let n := nat_of_ascii c in
  if (97 <=? n)%nat && (n <=? 122)%nat then ascii_of_nat (n - 32) else c.

Fixpoint toUpperCase (s : string) : string :=
  match s with
  | EmptyString => EmptyString
  | String c rest => String (upper_ascii c) (toUpperCase rest)
  end.

(** [String.prototype.substring(start, end)]: the arguments are swapped
    when [start > end] and both are clamped to the length. *)
Definition substring (start end_ : nat) (s : string) : string :=
  if (start <=? end_)%nat
  then String.substring start (end_ - start) s
  else String.substring end_ (start - end_) s.

(** Conversion of an integral number to a string, as done by a template
    literal: decimal digits, with a leading minus sign for a negative
    number (the writing of the numbers below 10^21 in magnitude, which
    include every clock reading). *)
Definition number_to_string (n : Z) : string :=
  NilZero.string_of_int (Z.to_int n).

(** The [TypeError] that [JSON.stringify] throws.  Its message is the
    engine's and is not modelled: the error is known by its name. *)
Definition TypeError : string := "TypeError".

End Js.

(** ** Type declarations (the [types] source) *)

Module Types.
Import Js.

(** The part of an Express request that the library reads.  [req_app] is
    [req.app], [socket_remoteAddress] is [req.socket.remoteAddress];
    [headers] holds the header values that are present. *)
Record Request : Type := {
  req_app : loc;
  method : string;
  url : string;
  ip : option string;
  socket_remoteAddress : option string;
  headers : gmap string string;
}.

(** A [Logger] is an object of four closures over the [requestId] and
    the [req] given to [createLogger]; it is represented by the two
    captured variables, and its four operations are the functions
    [Logger.debug], [Logger.info], [Logger.warn] and [Logger.error]. *)
Record Logger : Type := {
  bound_requestId : string;
  bound_req : loc;
}.

Record RequestContextData : Type := {
  app : loc;
  req : loc;
  res : loc;
  config : loc;
  logger : Logger;
  requestId : string;
  startTime : Z;
  metadata : loc;
}.

End Types.

(** ** The world: heap, scoped storage and console *)

Module World.
Import Js Types.

Inductive ConsoleMethod : Type :=
| console_debug | console_info | console_warn | console_error | console_log.

#[global] Instance ConsoleMethod_eq_dec : EqDecision ConsoleMethod.
Proof. solve_decision. Defined.

(** One call [console.<sink>(logMessage, '\n', logData)]. *)
Record ConsoleCall : Type := {
  sink : ConsoleMethod;
  logMessage : string;
  separator : string;
  logData : gmap string JsValue;
}.

Inductive Cell : Type :=
| RequestObject (r : Request)
| ContextObject (data : RequestContextData)
| MapObject (entries : gmap string JsValue)
| PlainObject (props : gmap string JsValue).

(** *** [JSON.stringify]

    Serialisation walks the objects that a value refers to and throws a
    [TypeError] on a [bigint] and on an object that is met again while it
    is being serialised (a cyclic structure).

    [members c] lists the values that the serialisation of the object [c]
    visits: the property values of a plain object; nothing for a [Map],
    which has no enumerable property; for a [RequestContext] the
    references held by its [data] property (the logger is an object of
    functions, which are left out, [metadata] is a [Map]).  An Express
    request cannot be serialised at all: [req.res.req] is [req]. *)
Definition members (c : Cell) : option (list JsValue) :=
  match c with
  | PlainObject props => Some (map_to_list props).*2
  | MapObject _ => Some []
  | ContextObject d => Some [JsRef (app d); JsRef (req d); JsRef (res d);
                             JsRef (config d)]
  | RequestObject _ => None
  end.

(** [object_serialisable fuel h l]: the object at [l] can be serialised,
    [h] holding the objects that are not being serialised at this point.
    An object is taken out of [h] while its members are visited, so a
    reference that [h] does not resolve closes a cycle.  Every step into
    an object takes one unit of [fuel] and one object out of [h]: the
    number of objects of [h] is fuel enough (see
    [serialisable_at_fuel]). *)
Fixpoint object_serialisable (fuel : nat) (h : gmap loc Cell) (l : loc) : bool :=
  match fuel with
  | O => false
  | S fuel' =>
      match h !! l with
      | Some c =>
          match members c with
          | Some vs =>
              forallb (λ v, match v with
                            | JsBigInt _ => false
                            | JsRef l' => object_serialisable fuel' (delete l h) l'
                            | _ => true
                            end) vs
          | None => false
          end
      | None => false
      end
  end.

(** A value can be serialised: it is not a [bigint], and when it is an
    object, the object can be. *)
Definition serialisable_at (fuel : nat) (h : gmap loc Cell) (v : JsValue) : bool :=
  match v with
  | JsBigInt _ => false
  | JsRef l => object_serialisable fuel h l
  | _ => true
  end.

Definition serialisable (h : gmap loc Cell) (v : JsValue) : bool :=
  serialisable_at (size h) h v.

(** The property values of a record can all be serialised. *)
Definition serialisable_record (h : gmap loc Cell) (o : gmap string JsValue) : bool :=
  forallb (serialisable h) (map_to_list o).*2.

(** [JSON.stringify(o, null, 2)] on a record: [None] when it throws the
    [TypeError]; otherwise a property whose value is [undefined] is left
    out of the serialisation.  The result stands for the JSON object that
    the emitted text denotes (its members, an object among them being
    known by its reference), not for the layout of that text. *)
Definition JSON_stringify (h : gmap loc Cell) (o : gmap string JsValue) :
    option (gmap string JsValue) :=
  if serialisable_record h o
  then Some (filter (λ kv, kv.2 ≠ JsUndefined) o)
  else None.

Record World : Type := {
  heap : gmap loc Cell;
  (** the value bound in the module-level [asyncLocalStorage] *)
  current_store : option loc;
  (** the calls made on [console], most recent first *)
  console : list ConsoleCall;
}.

Definition set_heap (h : gmap loc Cell) (w : World) : World :=
  {| heap := h; current_store := current_store w; console := console w |}.

Definition set_store (s : option loc) (w : World) : World :=
  {| heap := heap w; current_store := s; console := console w |}.

Definition push_console (c : ConsoleCall) (w : World) : World :=
  {| heap := heap w; current_store := current_store w; console := c :: console w |}.

(** The result of running a piece of code: normal completion with a
    value, an [Error] thrown with a message, or [Stuck] when a reference
    does not point to an object of the class the code expects (which the
    type checker excludes; see [wf_context]). *)
Inductive Outcome (T : Type) : Type :=
| Returns (v : T) (w : World)
| Throws (message : string) (w : World)
| Stuck.
Arguments Returns {T} v w.
Arguments Throws {T} message w.
Arguments Stuck {T}.

Definition Eff (T : Type) : Type := World → Outcome T.

Definition ret {T} (v : T) : Eff T := λ w, Returns v w.

Definition bind {T U} (m : Eff T) (k : T → Eff U) : Eff U :=
  λ w, match m w with
       | Returns v w' => k v w'
       | Throws e w' => Throws e w'
       | Stuck => Stuck
       end.

Definition throw {T} (message : string) : Eff T := λ w, Throws message w.

Definition stuck {T} : Eff T := λ _, Stuck.

Definition read_cell (l : loc) : Eff Cell :=
  λ w, match heap w !! l with
       | Some c => Returns c w
       | None => Stuck
       end.

Definition write_cell (l : loc) (c : Cell) : Eff unit :=
  λ w, Returns tt (set_heap (<[l := c]> (heap w)) w).

(** [new]: the object is placed at a reference that is not in use. *)
Definition alloc (c : Cell) : Eff loc :=
  λ w, let l := fresh (dom (heap w)) in
       Returns l (set_heap (<[l := c]> (heap w)) w).

(** The cells that existed in [w] and are not the cell [l0] have the same
    content in [w']; the binding of the storage and the console are the
    same. *)
Definition same_except (l0 : loc) (w w' : World) : Prop :=
  current_store w' = current_store w ∧
  console w' = console w ∧
  ∀ l, is_Some (heap w !! l) → l ≠ l0 → heap w' !! l = heap w !! l.

End World.

Notation "'let!' x := m 'in' k" := (World.bind m (λ x, k))
  (at level 10, x name, m at level 100, k at level 200, only parsing).

(** ** [context/logger.ts] *)

Module Logger.
Import Js Types World.

(** [switch (level)] of [logWithContext]. *)
Definition dispatch (level : string) : ConsoleMethod :=
  if String.eqb level "debug" then console_debug
  else if String.eqb level "info" then console_info
  else if String.eqb level "warn" then console_warn
  else if String.eqb level "error" then console_error
  else console_log.

(** The object literal [{ timestamp, requestId, method, url, ip, ...meta }]:
    the properties of [meta] are written last. *)
Definition context_record (requestId : string) (r : Request) (timestamp : string)
    (meta : option (gmap string JsValue)) : gmap string JsValue :=
  default ∅ meta ∪
    <["timestamp" := JsString timestamp]>
    (<["requestId" := JsString requestId]>
    (<["method" := JsString (method r)]>
    (<["url" := JsString (url r)]>
    (<["ip" := or_else JsString (ip r)
                 (from_option JsString JsUndefined (socket_remoteAddress r))]> ∅)))).

Definition logMessage_of (requestId timestamp level message : string) : string :=
  "[" +:+ timestamp +:+ "] [" +:+ toUpperCase level +:+ "] [" +:+ requestId +:+ "] "
      +:+ message.

(** [logWithContext], the closure of [createLogger]; [timestamp] is the
    value of [new Date().toISOString()] at the call.  [JSON.stringify]
    runs before the [switch]: when it throws, no call is made on the
    console. *)
Definition logWithContext (self : Logger) (timestamp : string)
    (level message : string) (meta : option (gmap string JsValue)) : Eff unit :=
  let! cell := read_cell (bound_req self) in
  match cell with
  | RequestObject r =>
      let context := context_record (bound_requestId self) r timestamp meta in
      let logMessage := logMessage_of (bound_requestId self) timestamp level message in
      λ w, match JSON_stringify (heap w) context with
           | Some logData =>
               Returns tt (push_console
                 {| sink := dispatch level; logMessage := logMessage;
                    separator := String "010" EmptyString; logData := logData |} w)
           | None => Throws TypeError w
           end
  | _ => stuck
  end.

Definition createLogger (requestId : string) (req : loc) : Logger :=
  {| bound_requestId := requestId; bound_req := req |}.

Definition debug (self : Logger) (timestamp message : string)
    (meta : option (gmap string JsValue)) : Eff unit :=
  logWithContext self timestamp "debug" message meta.

Definition info (self : Logger) (timestamp message : string)
    (meta : option (gmap string JsValue)) : Eff unit :=
  logWithContext self timestamp "info" message meta.

Definition warn (self : Logger) (timestamp message : string)
    (meta : option (gmap string JsValue)) : Eff unit :=
  logWithContext self timestamp "warn" message meta.

Definition error (self : Logger) (timestamp message : string)
    (meta : option (gmap string JsValue)) : Eff unit :=
  logWithContext self timestamp "error" message meta.

End Logger.

(** ** [AsyncLocalStorage] of [node:async_hooks]

    The storage is the runtime's; the library only calls [getStore] and
    [run].  [run(store, fn)] binds [store] for the synchronous extent of
    [fn] and puts back the value that was bound before, also when [fn]
    throws. *)

Module AsyncLocalStorage.
Import Js Types World.

Definition getStore : Eff (option loc) :=
  λ w, Returns (current_store w) w.

Definition run {T} (store : loc) (fn : Eff T) : Eff T :=
  λ w, let prior := current_store w in
       match fn (set_store (Some store) w) with
       | Returns v w' => Returns v (set_store prior w')
       | Throws e w' => Throws e (set_store prior w')
       | Stuck => Stuck
       end.

End AsyncLocalStorage.

(** ** [context/async-context.ts]: the class [RequestContext] *)

Module RequestContext.
Import Js Types World.

(** [this.data] *)
Definition data (this : loc) : Eff RequestContextData :=
  let! cell := read_cell this in
  match cell with
  | ContextObject d => ret d
  | _ => stuck
  end.

(** The [Map] that [this.data.metadata] refers to. *)
Definition metadata_entries (d : RequestContextData) : Eff (gmap string JsValue) :=
  let! cell := read_cell (Types.metadata d) in
  match cell with
  | MapObject m => ret m
  | _ => stuck
  end.

(** [this] refers to a [RequestContext] with private record [d], whose
    [metadata] refers to a [Map] with entries [m]. *)
Definition wf_context (w : World) (this : loc) (d : RequestContextData)
    (m : gmap string JsValue) : Prop :=
  heap w !! this = Some (ContextObject d) ∧
  heap w !! Types.metadata d = Some (MapObject m).

(** The constructor; [now] is the value of [Date.now()]. *)
Definition new (app req res config : loc) (requestId : string) (now : Z) : Eff loc :=
  let! m := alloc (MapObject ∅) in
  alloc (ContextObject
           {| Types.app := app;
              Types.req := req;
              Types.res := res;
              Types.config := config;
              Types.logger := Logger.createLogger requestId req;
              Types.requestId := requestId;
              Types.startTime := now;
              Types.metadata := m |}).

Definition app (this : loc) : Eff loc :=
  let! d := data this in ret (Types.app d).

Definition req (this : loc) : Eff loc :=
  let! d := data this in ret (Types.req d).

Definition res (this : loc) : Eff loc :=
  let! d := data this in ret (Types.res d).

Definition config (this : loc) : Eff loc :=
  let! d := data this in ret (Types.config d).

Definition logger (this : loc) : Eff Logger :=
  let! d := data this in ret (Types.logger d).

Definition requestId (this : loc) : Eff string :=
  let! d := data this in ret (Types.requestId d).

Definition startTime (this : loc) : Eff Z :=
  let! d := data this in ret (Types.startTime d).

(** [now] is the value of [Date.now()] at the access. *)
Definition elapsedTime (now : Z) (this : loc) : Eff Z :=
  let! d := data this in ret (now - Types.startTime d)%Z.

Definition setMetadata (this : loc) (key : string) (value : JsValue) : Eff unit :=
  let! d := data this in
  let! m := metadata_entries d in
  write_cell (Types.metadata d) (MapObject (<[key := value]> m)).

Definition getMetadata (this : loc) (key : string) : Eff JsValue :=
  let! d := data this in
  let! m := metadata_entries d in
  ret (default JsUndefined (m !! key)).

Definition hasMetadata (this : loc) (key : string) : Eff bool :=
  let! d := data this in
  let! m := metadata_entries d in
  ret (bool_decide (is_Some (m !! key))).

Definition deleteMetadata (this : loc) (key : string) : Eff bool :=
  let! d := data this in
  let! m := metadata_entries d in
  let! _ := write_cell (Types.metadata d) (MapObject (delete key m)) in
  ret (bool_decide (is_Some (m !! key))).

(** [Object.fromEntries] builds a new plain object. *)
Definition getAllMetadata (this : loc) : Eff loc :=
  let! d := data this in
  let! m := metadata_entries d in
  alloc (PlainObject m).

Definition clearMetadata (this : loc) : Eff unit :=
  let! d := data this in
  let! _ := metadata_entries d in
  write_cell (Types.metadata d) (MapObject ∅).

End RequestContext.

(** ** [context/async-context.ts]: the exported functions *)

Module AsyncContext.
Import Js Types World.

Definition getContext : Eff (option loc) :=
  AsyncLocalStorage.getStore.

Definition runInContext {T} (context : loc) (fn : Eff T) : Eff T :=
  AsyncLocalStorage.run context fn.

(** [now] is the value of [Date.now()] and [random36] the value of
    [Math.random().toString(36)]. *)
Definition generateRequestId (now : Z) (random36 : string) : string :=
  "req_" +:+ number_to_string now +:+ "_" +:+ substring 2 11 random36.

(** [asyncContext(config = {})] returns a closure over [config], which is
    represented by the reference it captured. *)
Definition asyncContext (config : option loc) : Eff loc :=
  match config with
  | Some c => ret c
  | None => alloc (PlainObject ∅)
  end.

(** The readings of the environment during one request: the clock and the
    random number read by [generateRequestId], and the clock read by the
    constructor of [RequestContext]. *)
Record Readings : Type := {
  id_now : Z;
  id_random36 : string;
  start_now : Z;
}.

(** The request identifier chosen on line 217. *)
Definition chosen_requestId (r : Request) (e : Readings) : string :=
  or_else id (headers r !! "x-request-id")
    (generateRequestId (id_now e) (id_random36 e)).

(** The handler that [asyncContext(config)] returns. *)
Definition handler (config : loc) (e : Readings) (req res : loc) (next : Eff unit) : Eff unit :=
  let! cell := read_cell req in
  match cell with
  | RequestObject r =>
      let requestId := chosen_requestId r e in
      let! context := RequestContext.new (req_app r) req res config requestId (start_now e) in
      runInContext context next
  | _ => stuck
  end.

End AsyncContext.

(** ** [context/globals.ts] *)

Module Globals.
Import Js Types World.

Definition dollar_app : Eff loc :=
  let! context := AsyncContext.getContext in
  match context with
  | None => throw "$app() can only be called within a request context"
  | Some c => RequestContext.app c
  end.

Definition dollar_req : Eff loc :=
  let! context := AsyncContext.getContext in
  match context with
  | None => throw "$req() can only be called within a request context"
  | Some c => RequestContext.req c
  end.

Definition dollar_res : Eff loc :=
  let! context := AsyncContext.getContext in
  match context with
  | None => throw "$res() can only be called within a request context"
  | Some c => RequestContext.res c
  end.

Definition dollar_config : Eff loc :=
  let! context := AsyncContext.getContext in
  match context with
  | None => throw "$config() can only be called within a request context"
  | Some c => RequestContext.config c
  end.

Definition dollar_logger : Eff Logger :=
  let! context := AsyncContext.getContext in
  match context with
  | None => throw "$logger() can only be called within a request context"
  | Some c => RequestContext.logger c
  end.

(** The messages of the five errors. *)
Definition accessor_messages : list string :=
  [ "$app() can only be called within a request context";
    "$req() can only be called within a request context";
    "$res() can only be called within a request context";
    "$config() can only be called within a request context";
    "$logger() can only be called within a request context" ].

End Globals.

(** ** Code that uses the library

    The properties below quantify over the code that calls the library:
    nested uses of [runInContext], sequences of calls on one
    [RequestContext], and assignments to a plain object. *)

Module Caller.
Import Js Types World.

(** A callback that only reads the current context and opens nested
    scopes:
    - [Observe rest] is [seen.push(getContext()); rest];
    - [Nested c body rest] is [runInContext(c, () => { body }); rest]. *)
Inductive Fn : Type :=
| Done
| Observe (rest : Fn)
| Nested (c : loc) (body : Fn) (rest : Fn).

(** Running a callback yields the values that its [getContext()] calls
    returned, in the order of the calls. *)
Fixpoint call (p : Fn) : Eff (list (option loc)) :=
  match p with
  | Done => ret []
  | Observe rest =>
      let! c := AsyncContext.getContext in
      let! seen := call rest in
      ret (c :: seen)
  | Nested c body rest =>
      let! seen1 := AsyncContext.runInContext c (call body) in
      let! seen2 := call rest in
      ret (seen1 ++ seen2)%list
  end.

(** What strict LIFO scoping prescribes: a read sees the context of the
    innermost enclosing [runInContext], and [outer] outside of all of
    them. *)
Fixpoint lexical (outer : option loc) (p : Fn) : list (option loc) :=
  match p with
  | Done => []
  | Observe rest => outer :: lexical outer rest
  | Nested c body rest => (lexical (Some c) body ++ lexical outer rest)%list
  end.

(** The operations of a [RequestContext], with their arguments. *)
Inductive Operation : Type :=
| get_app | get_req | get_res | get_config | get_logger
| get_requestId | get_startTime
| get_elapsedTime (now : Z)
| do_setMetadata (key : string) (value : JsValue)
| do_getMetadata (key : string)
| do_hasMetadata (key : string)
| do_deleteMetadata (key : string)
| do_getAllMetadata
| do_clearMetadata.

Definition discard {T} (m : Eff T) : Eff unit :=
  let! _ := m in ret tt.

Definition invoke (this : loc) (o : Operation) : Eff unit :=
  match o with
  | get_app => discard (RequestContext.app this)
  | get_req => discard (RequestContext.req this)
  | get_res => discard (RequestContext.res this)
  | get_config => discard (RequestContext.config this)
  | get_logger => discard (RequestContext.logger this)
  | get_requestId => discard (RequestContext.requestId this)
  | get_startTime => discard (RequestContext.startTime this)
  | get_elapsedTime now => discard (RequestContext.elapsedTime now this)
  | do_setMetadata key value => RequestContext.setMetadata this key value
  | do_getMetadata key => discard (RequestContext.getMetadata this key)
  | do_hasMetadata key => discard (RequestContext.hasMetadata this key)
  | do_deleteMetadata key => discard (RequestContext.deleteMetadata this key)
  | do_getAllMetadata => discard (RequestContext.getAllMetadata this)
  | do_clearMetadata => RequestContext.clearMetadata this
  end.

Fixpoint invoke_all (this : loc) (os : list Operation) : Eff unit :=
  match os with
  | [] => ret tt
  | o :: rest => let! _ := invoke this o in invoke_all this rest
  end.

(** Mutations of a plain object [o]: [o[key] = value] and
    [delete o[key]]. *)
Inductive Mutation : Type :=
| Assign (key : string) (value : JsValue)
| Remove (key : string).

Definition mutate (o : loc) (mu : Mutation) : Eff unit :=
  let! cell := read_cell o in
  match cell with
  | PlainObject props =>
      write_cell o (PlainObject
        match mu with
        | Assign key value => <[key := value]> props
        | Remove key => delete key props
        end)
  | _ => stuck
  end.

Fixpoint mutate_all (o : loc) (mus : list Mutation) : Eff unit :=
  match mus with
  | [] => ret tt
  | mu :: rest => let! _ := mutate o mu in mutate_all o rest
  end.

End Caller.

(** ** The documented format of a generated identifier

    The specification gives the format
    [req_<millisecond-timestamp>_<random-alphanumeric-suffix>].  It is
    written here as a recogniser, to be compared with what
    [generateRequestId] builds: [req_], a timestamp of one or more decimal
    digits, [_], and a suffix of one or more letters or digits. *)

Module IdentifierFormat.

Definition is_digit (c : ascii) : bool :=
  let n := nat_of_ascii c in (48 <=? n)%nat && (n <=? 57)%nat.

Definition is_alphanumeric (c : ascii) : bool :=
  let n := nat_of_ascii c in
  ((48 <=? n)%nat && (n <=? 57)%nat) || ((65 <=? n)%nat && (n <=? 90)%nat)
  || ((97 <=? n)%nat && (n <=? 122)%nat).

Fixpoint all_chars (p : ascii → bool) (s : string) : bool :=
  match s with
  | EmptyString => true
  | String c rest => p c && all_chars p rest
  end.

(** [after_digits s] reads the longest run of digits at the head of [s]
    and returns its length with the rest of [s]. *)
Fixpoint after_digits (s : string) : nat * string :=
  match s with
  | String c rest =>
      if is_digit c
      then let '(n, tail) := after_digits rest in (S n, tail)
      else (0, s)
  | EmptyString => (0, s)
  end.

Definition generated_format (s : string) : bool :=
  match s with
  | String "r" (String "e" (String "q" (String "_" s1))) =>
      match after_digits s1 with
      | (S _, String "_" (String c suffix)) =>
          all_chars is_alphanumeric (String c suffix)
      | _ => false
      end
  | _ => false
  end.

(** *** The writing of a random number

    This part describes the runtime, not the specification: the strings
    that [Number.prototype.toString(36)] yields for a number of the
    interval from 0 (included) to 1 (excluded) are ["0"], for the number
    0, and ["0."] followed by one or more digits in base 36. *)
Definition is_base36 (c : ascii) : bool :=
  let n := nat_of_ascii c in
  ((48 <=? n)%nat && (n <=? 57)%nat) || ((97 <=? n)%nat && (n <=? 122)%nat).

Definition unit_interval_base36 (s : string) : bool :=
  match s with
  | String c0 EmptyString => Ascii.eqb c0 "0"
  | String c0 (String c1 (String c rest)) =>
      Ascii.eqb c0 "0" && Ascii.eqb c1 "." && all_chars is_base36 (String c rest)
  | _ => false
  end.

End IdentifierFormat.

(** ** Sample inputs *)

Module Sample.
Import Js Types World.

Definition app_ref : loc := 1%positive.
Definition req_ref : loc := 2%positive.
Definition res_ref : loc := 3%positive.
Definition config_ref : loc := 4%positive.
Definition map_ref : loc := 5%positive.
Definition context_ref : loc := 6%positive.

(** [GET /users] carrying [x-request-id: abc123]. *)
Definition request : Request :=
  {| req_app := app_ref;
     method := "GET";
     url := "/users";
     ip := Some "203.0.113.7";
     socket_remoteAddress := Some "10.0.0.1";
     headers := {[ "x-request-id" := "abc123" ]} |}.

(** The same request without the header. *)
Definition plain_request : Request :=
  {| req_app := app_ref;
     method := "GET";
     url := "/users";
     ip := Some "203.0.113.7";
     socket_remoteAddress := Some "10.0.0.1";
     headers := ∅ |}.

(** A request whose connection is gone: neither address is available. *)
Definition orphan_request : Request :=
  {| req_app := app_ref;
     method := "GET";
     url := "/users";
     ip := None;
     socket_remoteAddress := None;
     headers := ∅ |}.

Definition world_of (r : Request) : World :=
  {| heap := {[ app_ref := PlainObject ∅;
                req_ref := RequestObject r;
                res_ref := PlainObject ∅;
                config_ref := PlainObject ∅ ]};
     current_store := None;
     console := [] |}.

(** The world at process start-up, with one request received. *)
Definition outside : World := world_of request.

Definition context_data : RequestContextData :=
  {| app := app_ref;
     req := req_ref;
     res := res_ref;
     config := config_ref;
     logger := Logger.createLogger "abc123" req_ref;
     requestId := "abc123";
     startTime := 1700000000000;
     metadata := map_ref |}.

Definition entries : gmap string JsValue :=
  {[ "user" := JsString "ada" ]}.

(** The world inside the handling of that request, with one entry in the
    metadata of its context. *)
Definition inside : World :=
  {| heap := <[context_ref := ContextObject context_data]>
             (<[map_ref := MapObject entries]> (heap outside));
     current_store := Some context_ref;
     console := [] |}.

(** A second context, made for a sub-task of the same request. *)
Definition other_map_ref : loc := 7%positive.
Definition other_context_ref : loc := 8%positive.

Definition other_context_data : RequestContextData :=
  {| app := app_ref;
     req := req_ref;
     res := res_ref;
     config := config_ref;
     logger := Logger.createLogger "sub-task" req_ref;
     requestId := "sub-task";
     startTime := 1700000000100;
     metadata := other_map_ref |}.

Definition with_sub_task : World :=
  {| heap := <[other_context_ref := ContextObject other_context_data]>
             (<[other_map_ref := MapObject ∅]> (heap inside));
     current_store := None;
     console := [] |}.

(** The readings of two requests handled in the same millisecond.  The
    random numbers are the neighbouring doubles 830860447311796 / 2^52 and
    830860447311797 / 2^52, which differ from the tenth digit in base 36
    on. *)
Definition first_readings : AsyncContext.Readings :=
  {| AsyncContext.id_now := 1700000000000;
     AsyncContext.id_random36 := "0.6n3h4p8y0km";
     AsyncContext.start_now := 1700000000000 |}.

Definition second_readings : AsyncContext.Readings :=
  {| AsyncContext.id_now := 1700000000000;
     AsyncContext.id_random36 := "0.6n3h4p8y0lf";
     AsyncContext.start_now := 1700000000000 |}.

End Sample.

(** ** Kinds of operations and further sample inputs *)

Module Usage.
Import Js Types World.

(** The operations of a [RequestContext] whose body contains no
    [set], [delete] or [clear] on the [Map]. *)
Definition writes_store (o : Caller.Operation) : bool :=
  match o with
  | Caller.do_setMetadata _ _ | Caller.do_deleteMetadata _
  | Caller.do_clearMetadata => true
  | _ => false
  end.

(** The sample request after a router has rewritten its [url]. *)
Definition rewritten_request : Request :=
  {| req_app := Sample.app_ref;
     method := "GET";
     url := "/";
     ip := Some "203.0.113.7";
     socket_remoteAddress := Some "10.0.0.1";
     headers := {[ "x-request-id" := "abc123" ]} |}.

(** A downstream step that fails. *)
Definition failing_step : Eff unit :=
  throw "database unavailable".

(** A world with an object that refers to itself:
    [const node = {}; node.self = node]. *)
Definition node_ref : loc := 9%positive.

Definition world_with_cycle : World :=
  {| heap := <[node_ref := PlainObject {[ "self" := JsRef node_ref ]}]>
             (heap Sample.outside);
     current_store := None;
     console := [] |}.

(** The readings of a request for which [Math.random()] returns 0. *)
Definition zero_readings : AsyncContext.Readings :=
  {| AsyncContext.id_now := 1700000000000;
     AsyncContext.id_random36 := "0";
     AsyncContext.start_now := 1700000000000 |}.

End Usage.

(** * Properties *)

Import Js Types World.

(** ** Evaluation of the monadic code *)

Lemma set_store_same (w : World) : set_store (current_store w) w = w.
Proof. by destruct w. Qed.

Lemma data_returns (w : World) (this : loc) (d : RequestContextData) :
  heap w !! this = Some (ContextObject d) →
  RequestContext.data this w = Returns d w.
Proof.
  intros H. unfold RequestContext.data, bind, read_cell. by rewrite H.
Qed.

Lemma metadata_entries_returns (w : World) (d : RequestContextData)
    (m : gmap string JsValue) :
  heap w !! metadata d = Some (MapObject m) →
  RequestContext.metadata_entries d w = Returns m w.
Proof.
  intros H. unfold RequestContext.metadata_entries, bind, read_cell. by rewrite H.
Qed.

Lemma wf_context_distinct (w : World) (this : loc) (d : RequestContextData)
    (m : gmap string JsValue) :
  RequestContext.wf_context w this d m → this ≠ metadata d.
Proof. intros [H1 H2] ->. congruence. Qed.

(** Replacing the entries of the [Map] keeps the context well formed. *)
Lemma wf_context_write (w : World) (this : loc) (d : RequestContextData)
    (m m' : gmap string JsValue) :
  RequestContext.wf_context w this d m →
  RequestContext.wf_context
    (set_heap (<[metadata d := MapObject m']> (heap w)) w) this d m'.
Proof.
  intros Hwf. pose proof (wf_context_distinct _ _ _ _ Hwf) as Hne.
  destruct Hwf as [H1 H2]. split; simpl.
  - by rewrite lookup_insert_ne.
  - by rewrite lookup_insert_eq.
Qed.

Ltac eval_context Hwf :=
  let H1 := fresh "Hthis" in
  let H2 := fresh "Hmap" in
  pose proof Hwf as [H1 H2];
  unfold RequestContext.setMetadata, RequestContext.getMetadata,
    RequestContext.hasMetadata, RequestContext.deleteMetadata,
    RequestContext.clearMetadata, RequestContext.getAllMetadata,
    RequestContext.app, RequestContext.req, RequestContext.res,
    RequestContext.config, RequestContext.logger, RequestContext.requestId,
    RequestContext.startTime, RequestContext.elapsedTime;
  unfold bind at 1;
  rewrite (data_returns _ _ _ H1);
  try (unfold bind at 1; rewrite (metadata_entries_returns _ _ _ H2)).

Lemma setMetadata_returns w this d m key value :
  RequestContext.wf_context w this d m →
  RequestContext.setMetadata this key value w
  = Returns tt (set_heap (<[metadata d := MapObject (<[key := value]> m)]> (heap w)) w).
Proof. intros Hwf. by eval_context Hwf. Qed.

Lemma getMetadata_returns w this d m key :
  RequestContext.wf_context w this d m →
  RequestContext.getMetadata this key w = Returns (default JsUndefined (m !! key)) w.
Proof. intros Hwf. by eval_context Hwf. Qed.

Lemma hasMetadata_returns w this d m key :
  RequestContext.wf_context w this d m →
  RequestContext.hasMetadata this key w = Returns (bool_decide (is_Some (m !! key))) w.
Proof. intros Hwf. by eval_context Hwf. Qed.

Lemma deleteMetadata_returns w this d m key :
  RequestContext.wf_context w this d m →
  RequestContext.deleteMetadata this key w
  = Returns (bool_decide (is_Some (m !! key)))
      (set_heap (<[metadata d := MapObject (delete key m)]> (heap w)) w).
Proof. intros Hwf. by eval_context Hwf. Qed.

Lemma clearMetadata_returns w this d m :
  RequestContext.wf_context w this d m →
  RequestContext.clearMetadata this w
  = Returns tt (set_heap (<[metadata d := MapObject ∅]> (heap w)) w).
Proof. intros Hwf. by eval_context Hwf. Qed.

Lemma getAllMetadata_returns w this d m :
  RequestContext.wf_context w this d m →
  RequestContext.getAllMetadata this w
  = Returns (fresh (dom (heap w)))
      (set_heap (<[fresh (dom (heap w)) := PlainObject m]> (heap w)) w).
Proof. intros Hwf. by eval_context Hwf. Qed.

(** ** Global accessors *)

Section GlobalAccessors.

Variable w : World.

(** With no context bound, each accessor throws the error that carries
    its own name, and returns nothing. *)
Lemma accessors_outside_context :
  current_store w = None →
  Globals.dollar_app w
    = Throws "$app() can only be called within a request context" w ∧
  Globals.dollar_req w
    = Throws "$req() can only be called within a request context" w ∧
  Globals.dollar_res w
    = Throws "$res() can only be called within a request context" w ∧
  Globals.dollar_config w
    = Throws "$config() can only be called within a request context" w ∧
  Globals.dollar_logger w
    = Throws "$logger() can only be called within a request context" w.
Proof.
  intros Hnone.
  unfold Globals.dollar_app, Globals.dollar_req, Globals.dollar_res,
    Globals.dollar_config, Globals.dollar_logger, AsyncContext.getContext,
    AsyncLocalStorage.getStore, bind, throw.
  rewrite Hnone. repeat split.
Qed.

(** With a context bound, each accessor returns the field of that
    context. *)
Lemma accessors_inside_context (c : loc) (d : RequestContextData) :
  current_store w = Some c →
  heap w !! c = Some (ContextObject d) →
  Globals.dollar_app w = Returns (app d) w ∧
  Globals.dollar_req w = Returns (req d) w ∧
  Globals.dollar_res w = Returns (res d) w ∧
  Globals.dollar_config w = Returns (config d) w ∧
  Globals.dollar_logger w = Returns (logger d) w.
Proof.
  intros Hsome Hd.
  unfold Globals.dollar_app, Globals.dollar_req, Globals.dollar_res,
    Globals.dollar_config, Globals.dollar_logger, AsyncContext.getContext,
    AsyncLocalStorage.getStore, bind.
  rewrite Hsome.
  unfold RequestContext.app, RequestContext.req, RequestContext.res,
    RequestContext.config, RequestContext.logger, bind.
  rewrite (data_returns _ _ _ Hd). repeat split.
Qed.

End GlobalAccessors.

Lemma accessor_messages_distinct : NoDup Globals.accessor_messages.
Proof. apply (bool_decide_unpack _). by vm_compute. Qed.

(** C1.  For each of the five global accessors: when no context is bound
    it throws the error whose message names that accessor (the five
    messages are pairwise different) and returns no value; when a context
    is bound it returns the corresponding field of that context. *)
Theorem global_accessors_contract (w : World) :
  (current_store w = None →
     Globals.dollar_app w
       = Throws "$app() can only be called within a request context" w ∧
     Globals.dollar_req w
       = Throws "$req() can only be called within a request context" w ∧
     Globals.dollar_res w
       = Throws "$res() can only be called within a request context" w ∧
     Globals.dollar_config w
       = Throws "$config() can only be called within a request context" w ∧
     Globals.dollar_logger w
       = Throws "$logger() can only be called within a request context" w) ∧
  (∀ (c : loc) (d : RequestContextData),
     current_store w = Some c →
     heap w !! c = Some (ContextObject d) →
     Globals.dollar_app w = Returns (app d) w ∧
     Globals.dollar_req w = Returns (req d) w ∧
     Globals.dollar_res w = Returns (res d) w ∧
     Globals.dollar_config w = Returns (config d) w ∧
     Globals.dollar_logger w = Returns (logger d) w) ∧
  NoDup Globals.accessor_messages.
Proof.
  split; [apply accessors_outside_context |].
  split; [apply accessors_inside_context | apply accessor_messages_distinct].
Qed.

Lemma global_accessors_contract_witness :
  Globals.dollar_app Sample.outside
    = Throws "$app() can only be called within a request context" Sample.outside ∧
  Globals.dollar_logger Sample.inside
    = Returns (Logger.createLogger "abc123" Sample.req_ref) Sample.inside.
Proof.
  split.
  - apply (proj1 (global_accessors_contract Sample.outside)). reflexivity.
  - apply (proj1 (proj2 (global_accessors_contract Sample.inside))
             Sample.context_ref Sample.context_data); reflexivity.
Defined.

(** ** The metadata store *)

Lemma sample_wf_context :
  RequestContext.wf_context Sample.inside Sample.context_ref
    Sample.context_data Sample.entries.
Proof. split; reflexivity. Qed.

Section Metadata.

Variables (w : World) (this : loc) (d : RequestContextData)
  (m : gmap string JsValue).
Hypothesis Hwf : RequestContext.wf_context w this d m.

Let stored (m' : gmap string JsValue) : World :=
  set_heap (<[metadata d := MapObject m']> (heap w)) w.

Lemma set_then_read (key : string) (value : JsValue) :
  RequestContext.setMetadata this key value w
    = Returns tt (stored (<[key := value]> m)) ∧
  RequestContext.getMetadata this key (stored (<[key := value]> m))
    = Returns value (stored (<[key := value]> m)) ∧
  RequestContext.hasMetadata this key (stored (<[key := value]> m))
    = Returns true (stored (<[key := value]> m)).
Proof.
  pose proof (wf_context_write _ _ _ _ (<[key := value]> m) Hwf) as Hwf'.
  unfold stored.
  split; [by apply setMetadata_returns |].
  rewrite (getMetadata_returns _ _ _ _ key Hwf').
  rewrite (hasMetadata_returns _ _ _ _ key Hwf').
  by rewrite lookup_insert_eq.
Qed.

Lemma set_keeps_other_keys (key other : string) (value : JsValue) :
  other ≠ key →
  RequestContext.getMetadata this other (stored (<[key := value]> m))
    = Returns (default JsUndefined (m !! other)) (stored (<[key := value]> m)).
Proof.
  intros Hne.
  pose proof (wf_context_write _ _ _ _ (<[key := value]> m) Hwf) as Hwf'.
  unfold stored.
  rewrite (getMetadata_returns _ _ _ _ other Hwf').
  by rewrite lookup_insert_ne.
Qed.

Lemma delete_then_has (key : string) :
  RequestContext.deleteMetadata this key w
    = Returns (bool_decide (is_Some (m !! key))) (stored (delete key m)) ∧
  RequestContext.hasMetadata this key (stored (delete key m))
    = Returns false (stored (delete key m)).
Proof.
  pose proof (wf_context_write _ _ _ _ (delete key m) Hwf) as Hwf'.
  unfold stored.
  split; [by apply deleteMetadata_returns |].
  rewrite (hasMetadata_returns _ _ _ _ key Hwf').
  by rewrite lookup_delete_eq.
Qed.

End Metadata.

(** C4.  On a context whose store holds the entries [m]:
    [setMetadata(k, v)] followed by [getMetadata(k)] gives [v] and by
    [hasMetadata(k)] gives [true]; [deleteMetadata(k)] returns [true] when
    [k] is present and [false] when it is absent, and [hasMetadata(k)] is
    [false] afterwards; a second [setMetadata] on the same key replaces
    the value. *)
Theorem metadata_round_trip (w : World) (this : loc) (d : RequestContextData)
    (m : gmap string JsValue) (k : string) (v v' : JsValue) :
  RequestContext.wf_context w this d m →
  (∃ w1,
     RequestContext.setMetadata this k v w = Returns tt w1 ∧
     RequestContext.getMetadata this k w1 = Returns v w1 ∧
     RequestContext.hasMetadata this k w1 = Returns true w1 ∧
     ∃ w2,
       RequestContext.setMetadata this k v' w1 = Returns tt w2 ∧
       RequestContext.getMetadata this k w2 = Returns v' w2) ∧
  (is_Some (m !! k) →
     ∃ w3,
       RequestContext.deleteMetadata this k w = Returns true w3 ∧
       RequestContext.hasMetadata this k w3 = Returns false w3) ∧
  (m !! k = None →
     ∃ w3,
       RequestContext.deleteMetadata this k w = Returns false w3 ∧
       RequestContext.hasMetadata this k w3 = Returns false w3).
Proof.
  intros Hwf. split; [| split].
  - destruct (set_then_read w this d m Hwf k v) as (Hset & Hget & Hhas).
    eexists. split; [exact Hset |]. split; [exact Hget |]. split; [exact Hhas |].
    pose proof (wf_context_write _ _ _ _ (<[k := v]> m) Hwf) as Hwf1.
    destruct (set_then_read _ this d _ Hwf1 k v') as (Hset' & Hget' & _).
    eexists. split; [exact Hset' | exact Hget'].
  - intros Hk. destruct (delete_then_has w this d m Hwf k) as (Hdel & Hhas).
    rewrite (bool_decide_eq_true_2 _ Hk) in Hdel.
    eexists. split; [exact Hdel | exact Hhas].
  - intros Hk. destruct (delete_then_has w this d m Hwf k) as (Hdel & Hhas).
    rewrite bool_decide_eq_false_2 in Hdel by (rewrite Hk; by intros [? ?]).
    eexists. split; [exact Hdel | exact Hhas].
Qed.

Lemma metadata_round_trip_witness :
  ∃ w3,
    RequestContext.deleteMetadata Sample.context_ref "user" Sample.inside
      = Returns true w3 ∧
    RequestContext.hasMetadata Sample.context_ref "user" w3 = Returns false w3.
Proof.
  apply (proj1 (proj2 (metadata_round_trip Sample.inside Sample.context_ref
    Sample.context_data Sample.entries "user" JsNull JsNull sample_wf_context))).
  by eexists.
Defined.

(** C9.  After [setMetadata(k, undefined)], [hasMetadata(k)] is [true]
    and [getMetadata(k)] is [undefined]; for a key that is not stored,
    [getMetadata(k)] is [undefined] as well while [hasMetadata(k)] is
    [false]: only [hasMetadata] tells the two states apart. *)
Theorem undefined_value_is_not_absence (w : World) (this : loc)
    (d : RequestContextData) (m : gmap string JsValue) (k : string) :
  RequestContext.wf_context w this d m →
  (∃ w1,
     RequestContext.setMetadata this k JsUndefined w = Returns tt w1 ∧
     RequestContext.hasMetadata this k w1 = Returns true w1 ∧
     RequestContext.getMetadata this k w1 = Returns JsUndefined w1) ∧
  (m !! k = None →
     RequestContext.hasMetadata this k w = Returns false w ∧
     RequestContext.getMetadata this k w = Returns JsUndefined w).
Proof.
  intros Hwf. split.
  - destruct (set_then_read w this d m Hwf k JsUndefined) as (Hset & Hget & Hhas).
    eexists. split; [exact Hset |]. split; [exact Hhas | exact Hget].
  - intros Hk.
    rewrite (hasMetadata_returns _ _ _ _ k Hwf), (getMetadata_returns _ _ _ _ k Hwf).
    by rewrite Hk.
Qed.

Lemma undefined_value_is_not_absence_witness :
  RequestContext.hasMetadata Sample.context_ref "trace" Sample.inside
    = Returns false Sample.inside ∧
  RequestContext.getMetadata Sample.context_ref "trace" Sample.inside
    = Returns JsUndefined Sample.inside.
Proof.
  apply (proj2 (undefined_value_is_not_absence Sample.inside Sample.context_ref
    Sample.context_data Sample.entries "trace" sample_wf_context)).
  reflexivity.
Defined.

(** ** What the operations of a context leave unchanged *)

Lemma field_returns {T} (f : RequestContextData → T) (w : World) (this : loc)
    (d : RequestContextData) :
  heap w !! this = Some (ContextObject d) →
  bind (RequestContext.data this) (λ d', ret (f d')) w = Returns (f d) w.
Proof. intros H. unfold bind. by rewrite (data_returns _ _ _ H). Qed.

Lemma same_except_refl l0 w : same_except l0 w w.
Proof. by repeat split. Qed.

Lemma same_except_trans l0 w1 w2 w3 :
  is_Some (heap w1 !! l0) → is_Some (heap w2 !! l0) →
  same_except l0 w1 w2 → same_except l0 w2 w3 → same_except l0 w1 w3.
Proof.
  intros _ _ (Hs & Hc & Hh) (Hs' & Hc' & Hh'). split; [congruence |].
  split; [congruence |]. intros l Hl Hne.
  rewrite <- (Hh l Hl Hne). apply Hh'; [| done]. by rewrite (Hh l Hl Hne).
Qed.

Lemma same_except_write l0 c w :
  same_except l0 w (set_heap (<[l0 := c]> (heap w)) w).
Proof.
  repeat split; simpl. intros l _ Hne. by rewrite lookup_insert_ne.
Qed.

Lemma same_except_alloc l0 c w :
  same_except l0 w (set_heap (<[fresh (dom (heap w)) := c]> (heap w)) w).
Proof.
  repeat split; simpl. intros l Hl _. rewrite lookup_insert_ne; [done |].
  intros <-. apply elem_of_dom in Hl. by apply is_fresh in Hl.
Qed.

Lemma wf_context_alloc w this d m c :
  RequestContext.wf_context w this d m →
  RequestContext.wf_context
    (set_heap (<[fresh (dom (heap w)) := c]> (heap w)) w) this d m.
Proof.
  intros [H1 H2]. destruct (same_except_alloc this c w) as (_ & _ & Hh).
  split; simpl in *.
  - rewrite lookup_insert_ne; [done |]. intros <-.
    apply (is_fresh (dom (heap w))), elem_of_dom. by eexists.
  - rewrite lookup_insert_ne; [done |]. intros Heq.
    apply (is_fresh (dom (heap w))). rewrite Heq. apply elem_of_dom. by eexists.
Qed.

(** One operation: it returns, the context keeps its record [d], and only
    the [Map] of the context changes among the existing objects. *)
Lemma invoke_frame (o : Caller.Operation) w this d m :
  RequestContext.wf_context w this d m →
  ∃ w' m',
    Caller.invoke this o w = Returns tt w' ∧
    RequestContext.wf_context w' this d m' ∧
    same_except (metadata d) w w'.
Proof.
  intros Hwf. pose proof Hwf as [Hthis Hmap].
  destruct o; unfold Caller.invoke, Caller.discard;
    try (unfold RequestContext.app, RequestContext.req, RequestContext.res,
           RequestContext.config, RequestContext.logger,
           RequestContext.requestId, RequestContext.startTime,
           RequestContext.elapsedTime;
         unfold bind at 1; rewrite (field_returns _ _ _ _ Hthis);
         exists w, m; split; [done |]; split; [done | apply same_except_refl]).
  - rewrite (setMetadata_returns _ _ _ _ key value Hwf).
    eexists _, _. split; [done |]. split; [apply (wf_context_write _ _ _ _ _ Hwf) |].
    apply same_except_write.
  - unfold bind at 1. rewrite (getMetadata_returns _ _ _ _ key Hwf).
    exists w, m. split; [done |]. split; [done | apply same_except_refl].
  - unfold bind at 1. rewrite (hasMetadata_returns _ _ _ _ key Hwf).
    exists w, m. split; [done |]. split; [done | apply same_except_refl].
  - unfold bind at 1. rewrite (deleteMetadata_returns _ _ _ _ key Hwf).
    eexists _, _. split; [done |]. split; [apply (wf_context_write _ _ _ _ _ Hwf) |].
    apply same_except_write.
  - unfold bind at 1. rewrite (getAllMetadata_returns _ _ _ _ Hwf).
    eexists _, m. split; [done |]. split; [apply (wf_context_alloc _ _ _ _ _ Hwf) |].
    apply same_except_alloc.
  - rewrite (clearMetadata_returns _ _ _ _ Hwf).
    eexists _, _. split; [done |]. split; [apply (wf_context_write _ _ _ _ _ Hwf) |].
    apply same_except_write.
Qed.

(** Any sequence of operations: by induction on the sequence. *)
Lemma invoke_all_frame (os : list Caller.Operation) w this d m :
  RequestContext.wf_context w this d m →
  ∃ w' m',
    Caller.invoke_all this os w = Returns tt w' ∧
    RequestContext.wf_context w' this d m' ∧
    same_except (metadata d) w w'.
Proof.
  revert w m. induction os as [| o os IH]; intros w m Hwf.
  - exists w, m. split; [done |]. split; [done | apply same_except_refl].
  - destruct (invoke_frame o w this d m Hwf) as (w1 & m1 & Hrun & Hwf1 & Hsame).
    destruct (IH w1 m1 Hwf1) as (w2 & m2 & Hrun' & Hwf2 & Hsame').
    exists w2, m2. split.
    + simpl. unfold bind. by rewrite Hrun.
    + split; [done |].
      apply (same_except_trans _ w w1 w2); try done.
      * destruct Hwf as [_ ->]. by eexists.
      * destruct Hwf1 as [_ ->]. by eexists.
Qed.

(** The constructor returns a well-formed context with an empty store. *)
Lemma new_returns (a r s c : loc) (rid : string) (now : Z) (w : World) :
  ∃ this w0,
    RequestContext.new a r s c rid now w = Returns this w0 ∧
    RequestContext.wf_context w0 this
      {| app := a; req := r; res := s; config := c;
         logger := Logger.createLogger rid r;
         requestId := rid; startTime := now;
         metadata := fresh (dom (heap w)) |} ∅ ∧
    same_except this w w0.
Proof.
  unfold RequestContext.new, bind, alloc. simpl.
  eexists _, _. split; [done |].
  set (l1 := fresh (dom (heap w))).
  set (h1 := <[l1 := MapObject ∅]> (heap w)).
  assert (Hne : fresh (dom h1) ≠ l1).
  { intros Heq. apply (is_fresh (dom h1)). rewrite Heq.
    apply elem_of_dom. unfold h1. rewrite lookup_insert_eq. by eexists. }
  split; [split; simpl |].
  - by rewrite lookup_insert_eq.
  - rewrite lookup_insert_ne by done. unfold h1. by rewrite lookup_insert_eq.
  - repeat split; simpl. intros l Hl _.
    assert (l ≠ l1).
    { intros ->. apply elem_of_dom in Hl. by apply is_fresh in Hl. }
    assert (l ≠ fresh (dom h1)).
    { intros ->. apply (is_fresh (dom h1)), elem_of_dom.
      unfold h1. by rewrite lookup_insert_ne. }
    rewrite lookup_insert_ne by done. unfold h1. by rewrite lookup_insert_ne.
Qed.

(** C8.  A context is constructed and then receives any sequence of
    accessor calls and metadata operations.  Afterwards [app], [req],
    [res], [config], [logger], [requestId] and [startTime] return what the
    constructor was given (the logger being the one built from [requestId]
    and [req], the start time the clock reading of the constructor); the
    private record of the context is the one of the construction, including
    its reference to the [Map]; and every object that existed after the
    construction, other than that [Map], is unchanged. *)
Theorem only_metadata_is_mutated (w : World) (a r s c : loc) (rid : string)
    (now : Z) (os : list Caller.Operation) :
  ∃ (this : loc) (d : RequestContextData) (w0 w' : World),
    RequestContext.new a r s c rid now w = Returns this w0 ∧
    heap w0 !! this = Some (ContextObject d) ∧
    Caller.invoke_all this os w0 = Returns tt w' ∧
    heap w' !! this = Some (ContextObject d) ∧
    RequestContext.app this w' = Returns a w' ∧
    RequestContext.req this w' = Returns r w' ∧
    RequestContext.res this w' = Returns s w' ∧
    RequestContext.config this w' = Returns c w' ∧
    RequestContext.logger this w' = Returns (Logger.createLogger rid r) w' ∧
    RequestContext.requestId this w' = Returns rid w' ∧
    RequestContext.startTime this w' = Returns now w' ∧
    same_except (metadata d) w0 w'.
Proof.
  destruct (new_returns a r s c rid now w) as (this & w0 & Hnew & Hwf & _).
  destruct (invoke_all_frame os _ _ _ _ Hwf) as (w' & m' & Hrun & Hwf' & Hsame).
  pose proof Hwf as [Hd _]. pose proof Hwf' as [Hd' _].
  eexists this, _, w0, w'.
  split; [exact Hnew |]. split; [exact Hd |]. split; [exact Hrun |].
  split; [exact Hd' |].
  unfold RequestContext.app, RequestContext.req, RequestContext.res,
    RequestContext.config, RequestContext.logger, RequestContext.requestId,
    RequestContext.startTime.
  rewrite !(field_returns _ _ _ _ Hd'). simpl.
  repeat (split; [reflexivity |]). exact Hsame.
Qed.

(** C7, as amended.  [elapsedTime] returns the [Date.now()] reading of
    the access minus [startTime] and changes nothing; this also holds for
    a second access made after any sequence of operations on the context,
    so no earlier result is reused.  The second result exceeds the first
    by the difference of the two clock readings: it is at least the first
    exactly when the clock reading of the second access is at least that
    of the first. *)
Theorem elapsedTime_recomputed (w : World) (this : loc) (d : RequestContextData)
    (m : gmap string JsValue) (now1 now2 : Z) (between : list Caller.Operation) :
  RequestContext.wf_context w this d m →
  ∃ (e1 e2 : Z) (w' : World),
    RequestContext.elapsedTime now1 this w = Returns e1 w ∧
    Caller.invoke_all this between w = Returns tt w' ∧
    RequestContext.elapsedTime now2 this w' = Returns e2 w' ∧
    e1 = (now1 - startTime d)%Z ∧
    e2 = (now2 - startTime d)%Z ∧
    (e2 - e1 = now2 - now1)%Z ∧
    ((e1 ≤ e2)%Z ↔ (now1 ≤ now2)%Z).
Proof.
  intros Hwf.
  destruct (invoke_all_frame between _ _ _ _ Hwf) as (w' & m' & Hrun & Hwf' & _).
  destruct Hwf as [Hd _]. destruct Hwf' as [Hd' _].
  exists (now1 - startTime d)%Z, (now2 - startTime d)%Z, w'.
  unfold RequestContext.elapsedTime.
  rewrite (field_returns (λ d', (now1 - startTime d')%Z) _ _ _ Hd).
  rewrite (field_returns (λ d', (now2 - startTime d')%Z) _ _ _ Hd').
  repeat (split; [done |]). split; lia.
Qed.

Lemma elapsedTime_recomputed_witness :
  ∃ (e1 e2 : Z) (w' : World),
    RequestContext.elapsedTime 1700000000005 Sample.context_ref Sample.inside
      = Returns e1 Sample.inside ∧
    Caller.invoke_all Sample.context_ref
      [Caller.get_elapsedTime 1700000000007; Caller.do_clearMetadata] Sample.inside
      = Returns tt w' ∧
    RequestContext.elapsedTime 1700000000042 Sample.context_ref w' = Returns e2 w' ∧
    e1 = (1700000000005 - startTime Sample.context_data)%Z ∧
    e2 = (1700000000042 - startTime Sample.context_data)%Z ∧
    (e2 - e1 = 1700000000042 - 1700000000005)%Z ∧
    ((e1 ≤ e2)%Z ↔ (1700000000005 ≤ 1700000000042)%Z).
Proof.
  apply (elapsedTime_recomputed Sample.inside Sample.context_ref
           Sample.context_data Sample.entries).
  split; reflexivity.
Defined.

(** C7 as stated fails: [Date.now()] is the wall clock.  On the sample
    context, built at the reading 1700000000000, a first read at the
    reading 1700000000005 returns 5; the clock is then set back, and a
    second read, later in time, at the reading 1699999999990 returns
    -10. *)
Lemma elapsedTime_decreases_when_clock_is_set_back :
  RequestContext.elapsedTime 1700000000005 Sample.context_ref Sample.inside
    = Returns 5%Z Sample.inside ∧
  RequestContext.elapsedTime 1699999999990 Sample.context_ref Sample.inside
    = Returns (-10)%Z Sample.inside ∧
  ¬ (5 ≤ -10)%Z.
Proof. split; [reflexivity |]. split; [reflexivity | lia]. Qed.

(** ** The snapshot of the metadata *)

(** Mutations of a plain object change that object only. *)
Lemma mutate_all_frame (mus : list Caller.Mutation) (o : loc) (w : World)
    (props : gmap string JsValue) :
  heap w !! o = Some (PlainObject props) →
  ∃ w' props',
    Caller.mutate_all o mus w = Returns tt w' ∧
    heap w' !! o = Some (PlainObject props') ∧
    ∀ l, l ≠ o → heap w' !! l = heap w !! l.
Proof.
  revert w props. induction mus as [| mu mus IH]; intros w props Ho.
  - by exists w, props.
  - simpl. unfold bind at 1. unfold Caller.mutate, bind, read_cell.
    rewrite Ho. unfold write_cell.
    edestruct (IH (set_heap (<[o := PlainObject
                   match mu with
                   | Caller.Assign key value => <[key := value]> props
                   | Caller.Remove key => delete key props
                   end]> (heap w)) w)) as (w' & props' & Hrun & Ho' & Hframe).
    { simpl. by rewrite lookup_insert_eq. }
    exists w', props'. split; [exact Hrun |]. split; [exact Ho' |].
    intros l Hne. rewrite (Hframe l Hne). simpl. by rewrite lookup_insert_ne.
Qed.

(** C6.  [getAllMetadata()] returns a new object that holds the entries of
    the store at the time of the call.  After any sequence of assignments
    to and deletions from that object, [getMetadata] and [hasMetadata]
    return for every key what they returned before the snapshot was
    taken. *)
Theorem snapshot_independence (w : World) (this : loc) (d : RequestContextData)
    (m : gmap string JsValue) (mus : list Caller.Mutation) :
  RequestContext.wf_context w this d m →
  ∃ (snapshot : loc) (w1 w2 : World),
    RequestContext.getAllMetadata this w = Returns snapshot w1 ∧
    heap w !! snapshot = None ∧
    heap w1 !! snapshot = Some (PlainObject m) ∧
    Caller.mutate_all snapshot mus w1 = Returns tt w2 ∧
    ∀ key : string,
      ∃ (value : JsValue) (present : bool),
        RequestContext.getMetadata this key w = Returns value w ∧
        RequestContext.hasMetadata this key w = Returns present w ∧
        RequestContext.getMetadata this key w2 = Returns value w2 ∧
        RequestContext.hasMetadata this key w2 = Returns present w2.
Proof.
  intros Hwf.
  set (snapshot := fresh (dom (heap w))).
  set (w1 := set_heap (<[snapshot := PlainObject m]> (heap w)) w).
  assert (Hfresh : heap w !! snapshot = None).
  { apply not_elem_of_dom, is_fresh. }
  assert (Hsnap : heap w1 !! snapshot = Some (PlainObject m)).
  { simpl. by rewrite lookup_insert_eq. }
  destruct (mutate_all_frame mus snapshot w1 m Hsnap)
    as (w2 & props' & Hrun & _ & Hframe).
  assert (Hwf2 : RequestContext.wf_context w2 this d m).
  { pose proof (wf_context_alloc _ _ _ _ (PlainObject m) Hwf) as [H1 H2].
    destruct Hwf as [H1' H2'].
    split; rewrite Hframe; try done; intros Heq; fold snapshot in H1, H2;
      rewrite Heq in *; congruence. }
  exists snapshot, w1, w2.
  split; [apply (getAllMetadata_returns _ _ _ _ Hwf) |].
  split; [exact Hfresh |]. split; [exact Hsnap |]. split; [exact Hrun |].
  intros key.
  exists (default JsUndefined (m !! key)), (bool_decide (is_Some (m !! key))).
  rewrite !(getMetadata_returns _ _ _ _ key Hwf), !(hasMetadata_returns _ _ _ _ key Hwf).
  by rewrite !(getMetadata_returns _ _ _ _ key Hwf2), !(hasMetadata_returns _ _ _ _ key Hwf2).
Qed.

Lemma snapshot_independence_witness :
  ∃ (snapshot : loc) (w1 w2 : World),
    RequestContext.getAllMetadata Sample.context_ref Sample.inside
      = Returns snapshot w1 ∧
    heap Sample.inside !! snapshot = None ∧
    heap w1 !! snapshot = Some (PlainObject Sample.entries) ∧
    Caller.mutate_all snapshot
      [Caller.Assign "user" (JsString "eve"); Caller.Remove "user"] w1
      = Returns tt w2 ∧
    ∀ key : string,
      ∃ (value : JsValue) (present : bool),
        RequestContext.getMetadata Sample.context_ref key Sample.inside
          = Returns value Sample.inside ∧
        RequestContext.hasMetadata Sample.context_ref key Sample.inside
          = Returns present Sample.inside ∧
        RequestContext.getMetadata Sample.context_ref key w2 = Returns value w2 ∧
        RequestContext.hasMetadata Sample.context_ref key w2 = Returns present w2.
Proof.
  apply (snapshot_independence Sample.inside Sample.context_ref
           Sample.context_data Sample.entries).
  exact sample_wf_context.
Defined.

(** ** Nested scopes *)

Lemma set_store_twice (s s' : option loc) (w : World) :
  set_store s (set_store s' w) = set_store s w.
Proof. reflexivity. Qed.

(** Every [getContext()] of a callback returns the context of the
    innermost enclosing [runInContext], and the binding in force when the
    callback started is in force again when it ends. *)
Lemma call_follows_nesting (p : Caller.Fn) :
  ∀ w, Caller.call p w = Returns (Caller.lexical (current_store w) p) w.
Proof.
  induction p as [| rest IH | c body IHbody rest IHrest]; intros w; simpl.
  - reflexivity.
  - unfold bind, AsyncContext.getContext, AsyncLocalStorage.getStore.
    by rewrite IH.
  - destruct w as [h s k].
    unfold bind at 1.
    unfold AsyncContext.runInContext, AsyncLocalStorage.run.
    rewrite IHbody. cbn.
    unfold bind. by rewrite IHrest.
Qed.

(** A callback of any kind: when it returns, the binding that
    [runInContext] found is in force again. *)
Lemma runInContext_returns {T} (c : loc) (fn : Eff T) (v : T) (w w' : World) :
  fn (set_store (Some c) w) = Returns v w' →
  AsyncContext.runInContext c fn w = Returns v (set_store (current_store w) w').
Proof.
  intros H. unfold AsyncContext.runInContext, AsyncLocalStorage.run. by rewrite H.
Qed.

(** C2.  [runInContext(A, fn)] where [fn] runs [runInContext(B, g)] and
    then continues.  (1) For callbacks made of [getContext()] calls and
    further nested [runInContext] calls, at any depth: every read returns
    the context of the innermost enclosing [runInContext] (the binding at
    entry outside of all of them), and the binding at entry is in force at
    exit.  (2) In particular the reads of [g] outside deeper scopes return
    [B] and the reads after the inner run return [A].  (3) For an inner
    callback [g] of any kind that starts by reading the context and
    returns: that read returns [B], and a read made after the inner run
    returns [A]; the binding found by the outer run is in force at the
    end. *)
Theorem nested_runInContext_is_lifo (A B : loc) :
  (∀ (p : Caller.Fn) (w : World),
     Caller.call p w = Returns (Caller.lexical (current_store w) p) w) ∧
  (∀ (w : World),
     Caller.call
       (Caller.Nested A
          (Caller.Nested B (Caller.Observe (Caller.Observe Caller.Done))
             (Caller.Observe Caller.Done))
          (Caller.Observe Caller.Done)) w
     = Returns [Some B; Some B; Some A; current_store w] w) ∧
  (∀ (T : Type) (g : Eff T) (v : T) (w wg : World),
     g (set_store (Some B) w) = Returns v wg →
     AsyncContext.runInContext A
       (let! inner :=
          AsyncContext.runInContext B
            (let! seen := AsyncContext.getContext in
             let! result := g in
             ret (seen, result)) in
        let! after := AsyncContext.getContext in
        ret (inner, after)) w
     = Returns ((Some B, v), Some A) (set_store (current_store w) wg)).
Proof.
  split; [intros p w; apply call_follows_nesting |].
  split; [intros w; by rewrite call_follows_nesting |].
  intros T g v w wg Hg.
  apply (runInContext_returns A _ _ w (set_store (Some A) wg)).
  unfold bind at 1.
  rewrite (runInContext_returns B _ (Some B, v) _ wg).
  - reflexivity.
  - unfold bind, AsyncContext.getContext, AsyncLocalStorage.getStore.
    simpl. rewrite set_store_twice. by rewrite Hg.
Qed.

Lemma nested_runInContext_is_lifo_witness :
  AsyncContext.runInContext Sample.context_ref
    (let! inner :=
       AsyncContext.runInContext Sample.other_context_ref
         (let! seen := AsyncContext.getContext in
          let! result := Globals.dollar_logger in
          ret (seen, result)) in
     let! after := AsyncContext.getContext in
     ret (inner, after)) Sample.with_sub_task
  = Returns
      ((Some Sample.other_context_ref, Logger.createLogger "sub-task" Sample.req_ref),
       Some Sample.context_ref)
      (set_store (current_store Sample.with_sub_task)
         (set_store (Some Sample.other_context_ref) Sample.with_sub_task)).
Proof.
  apply (proj2 (proj2 (nested_runInContext_is_lifo Sample.context_ref
                         Sample.other_context_ref))
           Logger Globals.dollar_logger
           (Logger.createLogger "sub-task" Sample.req_ref)
           Sample.with_sub_task).
  reflexivity.
Defined.

(** ** The serialiser *)

Lemma object_serialisable_step (fuel : nat) (h : gmap loc Cell) (l : loc) :
  object_serialisable (S fuel) h l
  = match h !! l with
    | Some c =>
        match members c with
        | Some vs => forallb (serialisable_at fuel (delete l h)) vs
        | None => false
        end
    | None => false
    end.
Proof. reflexivity. Qed.

(** More fuel and more objects keep a value serialisable. *)
Lemma object_serialisable_mono (n : nat) :
  ∀ (n' : nat) (h h' : gmap loc Cell) (l : loc),
    (n ≤ n')%nat → h ⊆ h' →
    object_serialisable n h l = true → object_serialisable n' h' l = true.
Proof.
  induction n as [| n IH]; intros n' h h' l Hn Hh H; [discriminate |].
  destruct n' as [| n']; [lia |].
  rewrite object_serialisable_step in *.
  destruct (h !! l) as [c |] eqn:Hl; [| discriminate].
  rewrite (lookup_weaken _ _ _ _ Hl Hh).
  destruct (members c) as [vs |]; [| discriminate].
  rewrite forallb_forall in *. intros v Hv. specialize (H v Hv).
  destruct v; simpl in *; try done.
  apply (IH n' (delete l h) (delete l h')); [lia | by apply delete_mono | done].
Qed.

(** The number of objects is fuel enough. *)
Lemma object_serialisable_enough (n : nat) :
  ∀ (h : gmap loc Cell) (l : loc),
    (size h ≤ n)%nat →
    object_serialisable n h l = true → object_serialisable (size h) h l = true.
Proof.
  induction n as [| n IH]; intros h l Hsize H; [discriminate |].
  rewrite object_serialisable_step in H.
  destruct (h !! l) as [c |] eqn:Hl; [| discriminate].
  assert (Hdel : size (delete l h) = pred (size h)).
  { apply map_size_delete_Some. by eexists. }
  assert (Hpos : size h ≠ 0).
  { intros Hzero. apply map_size_empty_inv in Hzero. by rewrite Hzero in Hl. }
  destruct (size h) as [| k] eqn:Hk; [done |]. simpl in Hdel.
  rewrite object_serialisable_step, Hl.
  destruct (members c) as [vs |]; [| discriminate].
  rewrite forallb_forall in *. intros v Hv. specialize (H v Hv).
  destruct v; simpl in *; try done.
  rewrite <- Hdel. apply IH; [lia | done].
Qed.

Lemma serialisable_at_fuel (n : nat) (h : gmap loc Cell) (v : JsValue) :
  (size h ≤ n)%nat → serialisable_at n h v = serialisable h v.
Proof.
  intros Hsize. unfold serialisable. destruct v; simpl; try done.
  destruct (object_serialisable n h l) eqn:Hn.
  - symmetry. by apply (object_serialisable_enough n).
  - destruct (object_serialisable (size h) h l) eqn:Hs; [| done].
    rewrite (object_serialisable_mono _ n h h l Hsize (reflexivity h) Hs) in Hn.
    discriminate.
Qed.

(** Objects added to the heap do not make a serialisable value
    unserialisable. *)
Lemma serialisable_mono (h h' : gmap loc Cell) (v : JsValue) :
  h ⊆ h' → serialisable h v = true → serialisable h' v = true.
Proof.
  intros Hh. unfold serialisable. destruct v; simpl; try done.
  apply (object_serialisable_mono (size h)); [by apply map_subseteq_size | done].
Qed.

(** An object that is referred to twice, without a cycle, is serialised
    twice; an object that refers to itself is not serialisable. *)
Example shared_object_is_serialisable :
  serialisable (heap Usage.world_with_cycle) (JsRef Sample.res_ref) = true ∧
  serialisable_record (heap Usage.world_with_cycle)
    {[ "first" := JsRef Sample.res_ref; "second" := JsRef Sample.res_ref ]} = true ∧
  serialisable (heap Usage.world_with_cycle) (JsRef Usage.node_ref) = false.
Proof. by vm_compute. Qed.

Lemma serialisable_record_spec (h : gmap loc Cell) (o : gmap string JsValue) :
  serialisable_record h o = true
  ↔ ∀ k v, o !! k = Some v → serialisable h v = true.
Proof.
  unfold serialisable_record. rewrite forallb_forall. split.
  - intros H k v Hk. apply H, list_elem_of_In, list_elem_of_fmap.
    exists (k, v). split; [done |]. by apply elem_of_map_to_list.
  - intros H v [[k v'] [-> Hkv]]%list_elem_of_In%list_elem_of_fmap.
    apply elem_of_map_to_list in Hkv. by apply (H k).
Qed.

Lemma serialisable_record_empty (h : gmap loc Cell) :
  serialisable_record h ∅ = true.
Proof. apply serialisable_record_spec. intros k v Hk. by rewrite lookup_empty in Hk. Qed.

Lemma serialisable_record_mono (h h' : gmap loc Cell) (o : gmap string JsValue) :
  h ⊆ h' → serialisable_record h o = true → serialisable_record h' o = true.
Proof.
  rewrite !serialisable_record_spec. intros Hh H k v Hk.
  apply (serialisable_mono h h'); [done | by apply (H k)].
Qed.

(** ** The logger *)

(** Splits a [Forall] over an explicit list into one goal per element. *)
Ltac each_element :=
  repeat first [apply List.Forall_nil | apply List.Forall_cons].

(** The standard fields are strings or [undefined]: the record can be
    serialised exactly when the attachment can. *)
Lemma context_record_serialisable (h : gmap loc Cell) (requestId : string)
    (r : Request) (timestamp : string) (meta : option (gmap string JsValue)) :
  serialisable_record h (Logger.context_record requestId r timestamp meta)
  = serialisable_record h (default ∅ meta).
Proof.
  apply eq_true_iff_eq. rewrite !serialisable_record_spec. split.
  - intros H k v Hk. apply (H k). unfold Logger.context_record.
    by apply lookup_union_Some_l.
  - intros H k v Hk. unfold Logger.context_record in Hk.
    apply lookup_union_Some_raw in Hk as [Hk | [_ Hk]]; [by apply (H k) |].
    repeat (apply lookup_insert_Some in Hk as [[_ <-] | [_ Hk]]; [done |]).
    apply lookup_insert_Some in Hk as [[_ <-] | [_ Hk]]; [| done].
    unfold or_else. destruct (ip r) as [s |]; [destruct (String.eqb s "") |];
      by destruct (socket_remoteAddress r).
Qed.

Lemma logWithContext_returns (self : Logger) (r : Request)
    (timestamp level message : string) (meta : option (gmap string JsValue))
    (w : World) :
  heap w !! bound_req self = Some (RequestObject r) →
  serialisable_record (heap w) (default ∅ meta) = true →
  Logger.logWithContext self timestamp level message meta w
  = Returns tt
      (push_console
         {| sink := Logger.dispatch level;
            logMessage :=
              Logger.logMessage_of (bound_requestId self) timestamp level message;
            separator := String "010" EmptyString;
            logData :=
              filter (λ kv, kv.2 ≠ JsUndefined)
                (Logger.context_record (bound_requestId self) r timestamp meta) |}
         w).
Proof.
  intros H Hmeta. unfold Logger.logWithContext, bind, read_cell. rewrite H.
  unfold JSON_stringify. by rewrite context_record_serialisable, Hmeta.
Qed.

(** An attachment that cannot be serialised: the [TypeError] is thrown
    and nothing has changed. *)
Lemma logWithContext_throws (self : Logger) (r : Request)
    (timestamp level message : string) (meta : option (gmap string JsValue))
    (w : World) :
  heap w !! bound_req self = Some (RequestObject r) →
  serialisable_record (heap w) (default ∅ meta) = false →
  Logger.logWithContext self timestamp level message meta w = Throws TypeError w.
Proof.
  intros H Hmeta. unfold Logger.logWithContext, bind, read_cell. rewrite H.
  unfold JSON_stringify. by rewrite context_record_serialisable, Hmeta.
Qed.

(** A member of the serialised record is a property of the record whose
    value is not [undefined]. *)
Lemma JSON_stringify_lookup (o : gmap string JsValue) (k : string) :
  filter (λ kv, kv.2 ≠ JsUndefined) o !! k
  = match o !! k with
    | Some JsUndefined => None
    | other => other
    end.
Proof.
  rewrite map_lookup_filter.
  destruct (o !! k) as [v |]; simpl; [| done].
  case_guard as Hv; simpl in *; destruct v; done.
Qed.

Lemma context_record_attachment requestId r timestamp meta (k : string) (v : JsValue) :
  default ∅ meta !! k = Some v →
  Logger.context_record requestId r timestamp meta !! k = Some v.
Proof. intros H. unfold Logger.context_record. by apply lookup_union_Some_l. Qed.

Lemma context_record_standard requestId r timestamp meta (k : string) :
  default ∅ meta !! k = None →
  Logger.context_record requestId r timestamp meta !! k
  = (<["timestamp" := JsString timestamp]>
     (<["requestId" := JsString requestId]>
     (<["method" := JsString (method r)]>
     (<["url" := JsString (url r)]>
     (<["ip" := or_else JsString (ip r)
                  (from_option JsString JsUndefined (socket_remoteAddress r))]>
        (∅ : gmap string JsValue)))))) !! k.
Proof. intros H. unfold Logger.context_record. by apply lookup_union_r. Qed.

(** The value of [req.ip || req.socket.remoteAddress], when there is one. *)
Lemma address_value (r : Request) :
  match or_else JsString (ip r)
          (from_option JsString JsUndefined (socket_remoteAddress r)) with
  | JsUndefined => None
  | other => Some other
  end
  = JsString <$> or_else Some (ip r) (socket_remoteAddress r).
Proof.
  unfold or_else. destruct (ip r) as [s |]; [destruct (String.eqb s "") |];
    by destruct (socket_remoteAddress r).
Qed.

Lemma enriched_record (requestId : string) (r : Request) (timestamp : string)
    (meta : option (gmap string JsValue)) :
  let attachment := default ∅ meta in
  let data :=
    filter (λ kv, kv.2 ≠ JsUndefined)
      (Logger.context_record requestId r timestamp meta) in
  (∀ k v, attachment !! k = Some v → v ≠ JsUndefined → data !! k = Some v) ∧
  (∀ k, attachment !! k = Some JsUndefined → data !! k = None) ∧
  (attachment !! "timestamp" = None →
     data !! "timestamp" = Some (JsString timestamp)) ∧
  (attachment !! "requestId" = None →
     data !! "requestId" = Some (JsString requestId)) ∧
  (attachment !! "method" = None → data !! "method" = Some (JsString (method r))) ∧
  (attachment !! "url" = None → data !! "url" = Some (JsString (url r))) ∧
  (attachment !! "ip" = None →
     data !! "ip" = JsString <$> or_else Some (ip r) (socket_remoteAddress r)) ∧
  (∀ k, attachment !! k = None →
     k ∉ ["timestamp"; "requestId"; "method"; "url"; "ip"] →
     data !! k = None).
Proof.
  intros attachment data. unfold data.
  split; [| split].
  - intros k v Hk Hv. rewrite JSON_stringify_lookup.
    rewrite (context_record_attachment _ _ _ _ k v Hk). by destruct v.
  - intros k Hk. rewrite JSON_stringify_lookup.
    by rewrite (context_record_attachment _ _ _ _ k _ Hk).
  - repeat split; try (intros Hk; rewrite JSON_stringify_lookup,
      (context_record_standard _ _ _ _ _ Hk); reflexivity).
    + intros Hk. rewrite JSON_stringify_lookup,
        (context_record_standard _ _ _ _ _ Hk).
      rewrite !lookup_insert_ne by done. rewrite lookup_insert_eq.
      apply address_value.
    + intros k Hk Hstd. rewrite JSON_stringify_lookup,
        (context_record_standard _ _ _ _ _ Hk).
      rewrite !lookup_insert_ne; [by rewrite lookup_empty | ..];
        intros <-; apply Hstd; set_solver.
Qed.

(** C5, as amended.  When the attachment can be serialised, each of the
    four operations of a logger makes one call on the console method of
    its level, with the line [[<timestamp>] [<LEVEL>] [<requestId>]
    <message>], a line feed, and the serialisation of a record in which: a
    key of the attachment carries the value of the attachment, also when
    it is one of the standard keys, and is left out when that value is
    [undefined]; [timestamp], [requestId], [method] and [url], when the
    attachment does not have them, carry the timestamp, the identifier of
    the logger and the method and url of the request; [ip], when the
    attachment does not have it, carries [req.ip], or else
    [req.socket.remoteAddress], and is left out when neither is available;
    there is no other key.  When the attachment cannot be serialised (it
    holds a [bigint] or a cyclic structure), each of the four operations
    throws the [TypeError] of [JSON.stringify] and emits nothing. *)
Theorem log_record_contents (self : Logger) (r : Request) (timestamp message : string)
    (meta : option (gmap string JsValue)) (w : World) :
  heap w !! bound_req self = Some (RequestObject r) →
  (serialisable_record (heap w) (default ∅ meta) = true →
   ∃ data : gmap string JsValue,
     Forall
       (λ '(operation, LEVEL, target),
          operation self timestamp message meta w
          = Returns tt
              (push_console
                 {| sink := target;
                    logMessage :=
                      "[" +:+ timestamp +:+ "] [" +:+ LEVEL +:+ "] ["
                          +:+ bound_requestId self +:+ "] " +:+ message;
                    separator := String "010" EmptyString;
                    logData := data |} w))
       [ (Logger.debug, "DEBUG", console_debug);
         (Logger.info, "INFO", console_info);
         (Logger.warn, "WARN", console_warn);
         (Logger.error, "ERROR", console_error) ] ∧
     let attachment := default ∅ meta in
     (∀ k v, attachment !! k = Some v → v ≠ JsUndefined → data !! k = Some v) ∧
     (∀ k, attachment !! k = Some JsUndefined → data !! k = None) ∧
     (attachment !! "timestamp" = None →
        data !! "timestamp" = Some (JsString timestamp)) ∧
     (attachment !! "requestId" = None →
        data !! "requestId" = Some (JsString (bound_requestId self))) ∧
     (attachment !! "method" = None →
        data !! "method" = Some (JsString (method r))) ∧
     (attachment !! "url" = None → data !! "url" = Some (JsString (url r))) ∧
     (attachment !! "ip" = None →
        data !! "ip" = JsString <$> or_else Some (ip r) (socket_remoteAddress r)) ∧
     (∀ k, attachment !! k = None →
        k ∉ ["timestamp"; "requestId"; "method"; "url"; "ip"] →
        data !! k = None)) ∧
  (serialisable_record (heap w) (default ∅ meta) = false →
   Forall
     (λ operation, operation self timestamp message meta w = Throws TypeError w)
     [Logger.debug; Logger.info; Logger.warn; Logger.error]).
Proof.
  intros Hreq. split; intros Hmeta.
  - exists (filter (λ kv, kv.2 ≠ JsUndefined)
              (Logger.context_record (bound_requestId self) r timestamp meta)).
    split; [| apply enriched_record].
    each_element;
      unfold Logger.debug, Logger.info, Logger.warn, Logger.error;
      by rewrite (logWithContext_returns _ r _ _ _ _ _ Hreq Hmeta).
  - each_element;
      unfold Logger.debug, Logger.info, Logger.warn, Logger.error;
      by rewrite (logWithContext_throws _ r _ _ _ _ _ Hreq Hmeta).
Qed.

Lemma log_record_contents_witness :
  (∃ data : gmap string JsValue,
     Logger.info (Logger.createLogger "abc123" Sample.req_ref)
       "2023-11-14T22:13:20.000Z" "hello"
       (Some {[ "foo" := JsNumber 1; "requestId" := JsString "x" ]}) Sample.outside
     = Returns tt
         (push_console
            {| sink := console_info;
               logMessage := "[2023-11-14T22:13:20.000Z] [INFO] [abc123] hello";
               separator := String "010" EmptyString;
               logData := data |} Sample.outside) ∧
     data !! "foo" = Some (JsNumber 1) ∧
     data !! "requestId" = Some (JsString "x") ∧
     data !! "ip" = Some (JsString "203.0.113.7")) ∧
  Logger.error (Logger.createLogger "abc123" Sample.req_ref)
    "2023-11-14T22:13:20.000Z" "failed"
    (Some {[ "node" := JsRef Usage.node_ref ]}) Usage.world_with_cycle
  = Throws TypeError Usage.world_with_cycle.
Proof.
  split.
  - destruct (log_record_contents
                (Logger.createLogger "abc123" Sample.req_ref)
                Sample.request "2023-11-14T22:13:20.000Z" "hello"
                (Some {[ "foo" := JsNumber 1; "requestId" := JsString "x" ]})
                Sample.outside) as [Hemits _]; [reflexivity |].
    destruct Hemits
      as (data & Hcalls & Hattached & _ & _ & _ & _ & _ & Hip & _);
      [by vm_compute |].
    exists data. split.
    + exact (Forall_inv (Forall_inv_tail Hcalls)).
    + split; [by apply Hattached |]. split; [by apply Hattached |]. by apply Hip.
  - destruct (log_record_contents
                (Logger.createLogger "abc123" Sample.req_ref)
                Sample.request "2023-11-14T22:13:20.000Z" "failed"
                (Some {[ "node" := JsRef Usage.node_ref ]})
                Usage.world_with_cycle) as [_ Hthrows]; [reflexivity |].
    apply (Forall_inv (Forall_inv_tail (Forall_inv_tail (Forall_inv_tail
             (Hthrows ltac:(by vm_compute)))))).
Defined.

(** C5 as stated fails in two ways.  For a request whose [ip] and socket
    address are both unavailable, the record that [info] emits has no [ip]
    member.  For an attachment that holds a [bigint], and for one that
    holds an object referring to itself, [info] throws and the console has
    received nothing. *)
Lemma log_record_can_be_partial_or_missing :
  (∃ c : ConsoleCall,
     Logger.info (Logger.createLogger "abc123" Sample.req_ref)
       "2023-11-14T22:13:20.000Z" "hello" None
       (Sample.world_of Sample.orphan_request)
     = Returns tt (push_console c (Sample.world_of Sample.orphan_request)) ∧
     logData c !! "timestamp" = Some (JsString "2023-11-14T22:13:20.000Z") ∧
     logData c !! "ip" = None) ∧
  Logger.info (Logger.createLogger "abc123" Sample.req_ref)
    "2023-11-14T22:13:20.000Z" "hello" (Some {[ "count" := JsBigInt 1 ]})
    Sample.outside
  = Throws TypeError Sample.outside ∧
  Logger.info (Logger.createLogger "abc123" Sample.req_ref)
    "2023-11-14T22:13:20.000Z" "hello" (Some {[ "node" := JsRef Usage.node_ref ]})
    Usage.world_with_cycle
  = Throws TypeError Usage.world_with_cycle ∧
  console Usage.world_with_cycle = [].
Proof.
  split; [| split; [| split]].
  - eexists. split.
    + unfold Logger.info.
      by rewrite (logWithContext_returns _ Sample.orphan_request)
        by by vm_compute.
    + by vm_compute.
  - unfold Logger.info.
    by rewrite (logWithContext_throws _ Sample.request) by by vm_compute.
  - unfold Logger.info.
    by rewrite (logWithContext_throws _ Sample.request) by by vm_compute.
  - reflexivity.
Qed.

(** C10.  For a logger made by [createLogger] each of the four operations
    is [logWithContext] at one of the strings [debug], [info], [warn],
    [error]; the [switch] sends it to the console method of that name, so
    the call it makes is never on [console.log]: with an attachment that
    can be serialised the operation makes its call on the method of its
    level, and with one that cannot it throws before the [switch] and
    makes no call.  The default branch is the one taken exactly for the
    strings other than these four. *)
Theorem logger_never_reaches_default (requestId : string) (req : loc) (r : Request)
    (timestamp message : string) (meta : option (gmap string JsValue)) (w : World) :
  heap w !! req = Some (RequestObject r) →
  Forall
    (λ '(operation, level, target),
       level ∈ ["debug"; "info"; "warn"; "error"] ∧
       operation (Logger.createLogger requestId req) timestamp message meta w
       = Logger.logWithContext (Logger.createLogger requestId req)
           timestamp level message meta w ∧
       Logger.dispatch level = target ∧
       target ≠ console_log ∧
       (serialisable_record (heap w) (default ∅ meta) = true →
        ∃ c : ConsoleCall,
          operation (Logger.createLogger requestId req) timestamp message meta w
          = Returns tt (push_console c w) ∧
          sink c = target) ∧
       (serialisable_record (heap w) (default ∅ meta) = false →
        operation (Logger.createLogger requestId req) timestamp message meta w
        = Throws TypeError w))
    [ (Logger.debug, "debug", console_debug);
      (Logger.info, "info", console_info);
      (Logger.warn, "warn", console_warn);
      (Logger.error, "error", console_error) ] ∧
  (∀ level : string,
     Logger.dispatch level = console_log ↔
     level ∉ ["debug"; "info"; "warn"; "error"]).
Proof.
  intros Hreq. split.
  - each_element;
      (split; [set_solver |]); (split; [done |]); (split; [done |]);
      (split; [done |]);
      unfold Logger.debug, Logger.info, Logger.warn, Logger.error;
      (split; intros Hmeta;
       [ rewrite (logWithContext_returns (Logger.createLogger requestId req) r
                    _ _ _ _ _ Hreq Hmeta); by eexists
       | by rewrite (logWithContext_throws (Logger.createLogger requestId req) r
                       _ _ _ _ _ Hreq Hmeta) ]).
  - intros level. unfold Logger.dispatch.
    destruct (String.eqb_spec level "debug") as [-> | Hdebug];
      [split; [done | intros H; exfalso; apply H; set_solver] |].
    destruct (String.eqb_spec level "info") as [-> | Hinfo];
      [split; [done | intros H; exfalso; apply H; set_solver] |].
    destruct (String.eqb_spec level "warn") as [-> | Hwarn];
      [split; [done | intros H; exfalso; apply H; set_solver] |].
    destruct (String.eqb_spec level "error") as [-> | Herror];
      [split; [done | intros H; exfalso; apply H; set_solver] |].
    split; [intros _ | done].
    rewrite !not_elem_of_cons. repeat split; try done. apply not_elem_of_nil.
Qed.

Lemma logger_never_reaches_default_witness :
  ∃ c : ConsoleCall,
    Logger.warn (Logger.createLogger "abc123" Sample.req_ref)
      "2023-11-14T22:13:20.000Z" "slow" None Sample.outside
    = Returns tt (push_console c Sample.outside) ∧
    sink c = console_warn.
Proof.
  destruct (logger_never_reaches_default "abc123" Sample.req_ref Sample.request
              "2023-11-14T22:13:20.000Z" "slow" None Sample.outside eq_refl)
    as [Hcalls _].
  apply (proj1 (proj2 (proj2 (proj2 (proj2
    (Forall_inv (Forall_inv_tail (Forall_inv_tail Hcalls)))))))).
  by vm_compute.
Defined.

(** ** The request identifier *)

Lemma all_digits_string_of_uint (d : Decimal.uint) :
  IdentifierFormat.all_chars IdentifierFormat.is_digit (NilEmpty.string_of_uint d) = true.
Proof. induction d; simpl; by rewrite ?IHd. Qed.

(** The decimal writing of a number that is not negative: at least one
    character, digits only. *)
Lemma number_to_string_digits (n : Z) :
  (0 ≤ n)%Z →
  ∃ c s, number_to_string n = String c s ∧
         IdentifierFormat.all_chars IdentifierFormat.is_digit (String c s) = true.
Proof.
  intros Hn. unfold number_to_string.
  destruct n as [| p | p]; [by eexists _, _ | | lia].
  simpl. pose proof (all_digits_string_of_uint (Pos.to_uint p)) as Hd.
  destruct (Pos.to_uint p); simpl in *; by eexists _, _.
Qed.

Lemma after_digits_app (digits rest : string) :
  IdentifierFormat.all_chars IdentifierFormat.is_digit digits = true →
  IdentifierFormat.after_digits (digits +:+ String "_" rest)
  = (String.length digits, String "_" rest).
Proof.
  induction digits as [| c digits IH]; simpl; [done |].
  intros [Hc Hrest]%andb_true_iff. by rewrite Hc, (IH Hrest).
Qed.

Lemma substring_all_chars (p : ascii → bool) (n : nat) (s : string) :
  IdentifierFormat.all_chars p s = true →
  IdentifierFormat.all_chars p (String.substring 0 n s) = true.
Proof.
  revert s. induction n as [| n IH]; intros [| c s]; simpl; try done.
  intros [Hc Hs]%andb_true_iff. by rewrite Hc, (IH s Hs).
Qed.

Lemma substring_length_le (n : nat) (s : string) :
  (String.length (String.substring 0 n s) ≤ n)%nat.
Proof.
  revert s. induction n as [| n IH]; intros [| c s]; simpl; try lia.
  specialize (IH s). lia.
Qed.

Lemma base36_is_alphanumeric (s : string) :
  IdentifierFormat.all_chars IdentifierFormat.is_base36 s = true →
  IdentifierFormat.all_chars IdentifierFormat.is_alphanumeric s = true.
Proof.
  induction s as [| c s IH]; simpl; [done |].
  intros [Hc Hs]%andb_true_iff. rewrite (IH Hs), andb_true_r.
  unfold IdentifierFormat.is_base36 in Hc.
  unfold IdentifierFormat.is_alphanumeric.
  apply orb_true_iff in Hc as [Hc | Hc]; rewrite Hc; by rewrite ?orb_true_r.
Qed.

(** The suffix taken from a random number that is not 0: one or more
    characters, letters or digits only. *)
Lemma random_suffix (random36 : string) :
  IdentifierFormat.unit_interval_base36 random36 = true →
  random36 ≠ "0" →
  ∃ c rest,
    substring 2 11 random36 = String c rest ∧
    IdentifierFormat.all_chars IdentifierFormat.is_alphanumeric (String c rest)
      = true.
Proof.
  unfold substring. simpl.
  destruct random36 as [| c0 [| c1 [| c rest]]]; simpl; try done.
  - intros Hc0%Ascii.eqb_eq Hne. by subst c0.
  - intros [_ Hall]%andb_true_iff _.
    pose proof (substring_all_chars _ 9 (String c rest) Hall) as Hsub.
    simpl in Hsub. eexists _, _. split; [reflexivity |].
    by apply (base36_is_alphanumeric (String c (String.substring 0 8 rest))).
Qed.

Lemma generateRequestId_format (now : Z) (random36 : string) :
  (0 ≤ now)%Z →
  IdentifierFormat.unit_interval_base36 random36 = true →
  random36 ≠ "0" →
  IdentifierFormat.generated_format (AsyncContext.generateRequestId now random36) = true.
Proof.
  intros Hnow Hrandom Hne.
  destruct (number_to_string_digits now Hnow) as (c & s & Heq & Hdigits).
  destruct (random_suffix random36 Hrandom Hne) as (c' & rest & Hsuffix & Hall).
  unfold AsyncContext.generateRequestId. rewrite Heq, Hsuffix.
  pose proof (after_digits_app _ (String c' rest) Hdigits) as Hafter.
  change ("req_" +:+ String c s +:+ "_" +:+ String c' rest)
    with (String "r" (String "e" (String "q" (String "_"
            (String c s +:+ String "_" (String c' rest)))))).
  set (tail := String c s +:+ String "_" (String c' rest)) in *.
  unfold IdentifierFormat.generated_format. rewrite Hafter. simpl String.length.
  exact Hall.
Qed.

(** Two identifiers generated from the same clock reading are equal
    exactly when the suffixes taken from the random numbers are. *)
Lemma generateRequestId_same_now (now : Z) (random36 random36' : string) :
  AsyncContext.generateRequestId now random36
    = AsyncContext.generateRequestId now random36'
  ↔ substring 2 11 random36 = substring 2 11 random36'.
Proof.
  unfold AsyncContext.generateRequestId. split; [| by intros ->].
  intros H. by repeat apply String.app_inj in H.
Qed.

(** The handler builds one context and runs [next] with it bound. *)
Lemma handler_binds (config req res : loc) (r : Request)
    (e : AsyncContext.Readings) (w : World) :
  heap w !! req = Some (RequestObject r) →
  ∃ (context : loc) (d : RequestContextData) (w0 : World),
    RequestContext.new (req_app r) req res config
      (AsyncContext.chosen_requestId r e) (AsyncContext.start_now e) w
      = Returns context w0 ∧
    heap w0 !! context = Some (ContextObject d) ∧
    requestId d = AsyncContext.chosen_requestId r e ∧
    ∀ next : Eff unit,
      AsyncContext.handler config e req res next w
      = AsyncContext.runInContext context next w0.
Proof.
  intros Hreq.
  destruct (new_returns (req_app r) req res config
              (AsyncContext.chosen_requestId r e) (AsyncContext.start_now e) w)
    as (context & w0 & Hnew & [Hd _] & _).
  eexists context, _, w0. split; [exact Hnew |]. split; [exact Hd |].
  split; [reflexivity |]. intros next.
  unfold AsyncContext.handler, bind, read_cell. rewrite Hreq.
  by rewrite Hnew.
Qed.

(** C3.  The code at the inputs where the claim fails.  Two requests
    without the header, handled at the same clock reading with different
    random numbers, receive the same identifier: the random numbers agree
    on their first nine digits in base 36, the only ones that
    [generateRequestId] keeps.  And a request for which [Math.random()]
    returns 0 receives an identifier that ends after the second [_], which
    is not of the documented format. *)
Theorem generateRequestId_is_not_unique :
  AsyncContext.id_now Sample.first_readings
    = AsyncContext.id_now Sample.second_readings ∧
  AsyncContext.id_random36 Sample.first_readings
    ≠ AsyncContext.id_random36 Sample.second_readings ∧
  AsyncContext.chosen_requestId Sample.plain_request Sample.first_readings
    = "req_1700000000000_6n3h4p8y0" ∧
  AsyncContext.chosen_requestId Sample.plain_request Sample.second_readings
    = "req_1700000000000_6n3h4p8y0" ∧
  AsyncContext.chosen_requestId Sample.plain_request Usage.zero_readings
    = "req_1700000000000_" ∧
  IdentifierFormat.generated_format
    (AsyncContext.chosen_requestId Sample.plain_request Usage.zero_readings)
    = false.
Proof. by vm_compute. Qed.

(** X17.  The handler builds a context and runs [next] with that context
    bound; the [requestId] of the context is the value of the
    [x-request-id] header when the header is present and not empty, and
    otherwise what [generateRequestId] returns: [req_], the decimal clock
    reading, [_] and the characters 2 to 10 of the random number written
    in base 36.  For a clock reading that is not negative and a random
    number of the unit interval other than 0, that string is of the
    documented format. *)
Theorem request_identifier (config req res : loc) (r : Request)
    (e : AsyncContext.Readings) (w : World) :
  heap w !! req = Some (RequestObject r) →
  (∃ (context : loc) (d : RequestContextData) (w0 : World),
     (∀ next : Eff unit,
        AsyncContext.handler config e req res next w
        = AsyncContext.runInContext context next w0) ∧
     heap w0 !! context = Some (ContextObject d) ∧
     RequestContext.requestId context (set_store (Some context) w0)
       = Returns (requestId d) (set_store (Some context) w0) ∧
     (∀ h : string,
        headers r !! "x-request-id" = Some h → h ≠ "" → requestId d = h) ∧
     (headers r !! "x-request-id" = None ∨ headers r !! "x-request-id" = Some "" →
        requestId d
        = "req_" +:+ number_to_string (AsyncContext.id_now e) +:+ "_"
            +:+ substring 2 11 (AsyncContext.id_random36 e))) ∧
  ((0 ≤ AsyncContext.id_now e)%Z →
   IdentifierFormat.unit_interval_base36 (AsyncContext.id_random36 e) = true →
   AsyncContext.id_random36 e ≠ "0" →
   IdentifierFormat.generated_format
     (AsyncContext.generateRequestId (AsyncContext.id_now e)
        (AsyncContext.id_random36 e)) = true).
Proof.
  intros Hreq. split.
  - destruct (handler_binds config req res r e w Hreq)
      as (context & d & w0 & _ & Hd & Hid & Hrun).
    exists context, d, w0. split; [exact Hrun |]. split; [exact Hd |].
    split; [| split].
    + unfold RequestContext.requestId. by rewrite (field_returns _ _ _ d).
    + intros h Hh Hne. rewrite Hid. unfold AsyncContext.chosen_requestId, or_else.
      rewrite Hh. by destruct (String.eqb_spec h "").
    + intros Hh. rewrite Hid. unfold AsyncContext.chosen_requestId, or_else.
      by destruct Hh as [-> | ->].
  - apply generateRequestId_format.
Qed.

Lemma request_identifier_witness :
  (∃ (context : loc) (d : RequestContextData) (w0 : World),
     (∀ next : Eff unit,
        AsyncContext.handler Sample.config_ref Sample.first_readings
          Sample.req_ref Sample.res_ref next Sample.outside
        = AsyncContext.runInContext context next w0) ∧
     heap w0 !! context = Some (ContextObject d) ∧
     requestId d = "abc123") ∧
  IdentifierFormat.generated_format
    (AsyncContext.generateRequestId 1700000000000 "0.6n3h4p8y0km") = true.
Proof.
  destruct (request_identifier Sample.config_ref Sample.req_ref Sample.res_ref
              Sample.request Sample.first_readings Sample.outside eq_refl)
    as [(context & d & w0 & Hrun & Hd & _ & Hheader & _) Hformat].
  split.
  - exists context, d, w0. split; [exact Hrun |]. split; [exact Hd |].
    by apply Hheader.
  - apply Hformat; [simpl; lia | reflexivity | done].
Defined.

(** * Further properties of the code *)

(** ** The metadata operations *)

Lemma set_heap_same (w : World) : set_heap (heap w) w = w.
Proof. by destruct w. Qed.

(** Writing the [Map] of a context twice is writing the second content. *)
Lemma write_twice (w : World) (l : loc) (c c' : Cell) :
  set_heap (<[l := c']> (heap (set_heap (<[l := c]> (heap w)) w)))
    (set_heap (<[l := c]> (heap w)) w)
  = set_heap (<[l := c']> (heap w)) w.
Proof. unfold set_heap. simpl. by rewrite insert_insert_eq. Qed.

(** X1.  [clearMetadata()] empties the store: afterwards [hasMetadata] is
    [false] and [getMetadata] is [undefined] for every key, the snapshot
    taken by [getAllMetadata] has no property, no object other than the
    [Map] has changed, and a second [clearMetadata()] changes nothing. *)
Theorem clearMetadata_empties_store (w : World) (this : loc)
    (d : RequestContextData) (m : gmap string JsValue) :
  RequestContext.wf_context w this d m →
  ∃ w1 : World,
    RequestContext.clearMetadata this w = Returns tt w1 ∧
    (∀ key : string,
       RequestContext.hasMetadata this key w1 = Returns false w1 ∧
       RequestContext.getMetadata this key w1 = Returns JsUndefined w1) ∧
    (∃ (snapshot : loc) (w2 : World),
       RequestContext.getAllMetadata this w1 = Returns snapshot w2 ∧
       heap w2 !! snapshot = Some (PlainObject ∅)) ∧
    same_except (metadata d) w w1 ∧
    RequestContext.clearMetadata this w1 = Returns tt w1.
Proof.
  intros Hwf.
  pose proof (wf_context_write _ _ _ _ ∅ Hwf) as Hwf1.
  eexists. split; [apply (clearMetadata_returns _ _ _ _ Hwf) |].
  split; [| split; [| split]].
  - intros key.
    rewrite (hasMetadata_returns _ _ _ _ key Hwf1),
      (getMetadata_returns _ _ _ _ key Hwf1).
    by rewrite lookup_empty.
  - eexists _, _. split; [apply (getAllMetadata_returns _ _ _ _ Hwf1) |].
    simpl. by rewrite lookup_insert_eq.
  - apply same_except_write.
  - rewrite (clearMetadata_returns _ _ _ _ Hwf1). by rewrite write_twice.
Qed.

Lemma clearMetadata_empties_store_witness :
  ∃ w1 : World,
    RequestContext.clearMetadata Sample.context_ref Sample.inside = Returns tt w1 ∧
    RequestContext.hasMetadata Sample.context_ref "user" w1 = Returns false w1.
Proof.
  destruct (clearMetadata_empties_store Sample.inside Sample.context_ref
              Sample.context_data Sample.entries)
    as (w1 & Hclear & Hkeys & _).
  - split; reflexivity.
  - exists w1. split; [exact Hclear | apply Hkeys].
Defined.

(** X4.  [setMetadata] composes as assignments do: writing a key twice
    is the same as writing the second value only, and after writes to two
    different keys, made in either order, [getMetadata] and [hasMetadata]
    return the same for every key.  (The order in which a [Map] keeps its
    keys, which differs between the two orders of writing, is not part of
    the model and not covered.) *)
Theorem setMetadata_overwrites_and_commutes (w : World) (this : loc)
    (d : RequestContextData) (m : gmap string JsValue)
    (k k' : string) (v v' : JsValue) :
  RequestContext.wf_context w this d m →
  (let! _ := RequestContext.setMetadata this k v in
   RequestContext.setMetadata this k v') w
  = RequestContext.setMetadata this k v' w ∧
  (k ≠ k' →
   ∃ w12 w21 : World,
     (let! _ := RequestContext.setMetadata this k v in
      RequestContext.setMetadata this k' v') w = Returns tt w12 ∧
     (let! _ := RequestContext.setMetadata this k' v' in
      RequestContext.setMetadata this k v) w = Returns tt w21 ∧
     ∀ key : string,
       ∃ (value : JsValue) (present : bool),
         RequestContext.getMetadata this key w12 = Returns value w12 ∧
         RequestContext.getMetadata this key w21 = Returns value w21 ∧
         RequestContext.hasMetadata this key w12 = Returns present w12 ∧
         RequestContext.hasMetadata this key w21 = Returns present w21 ∧
         value = default JsUndefined (<[k := v]> (<[k' := v']> m) !! key)).
Proof.
  intros Hwf.
  pose proof (wf_context_write _ _ _ _ (<[k := v]> m) Hwf) as Hwf1.
  pose proof (wf_context_write _ _ _ _ (<[k' := v']> m) Hwf) as Hwf2.
  pose proof (wf_context_write _ _ _ _ (<[k' := v']> (<[k := v]> m)) Hwf) as Hwf12.
  pose proof (wf_context_write _ _ _ _ (<[k := v]> (<[k' := v']> m)) Hwf) as Hwf21.
  unfold bind.
  rewrite (setMetadata_returns _ _ _ _ k v Hwf),
    (setMetadata_returns _ _ _ _ k' v' Hwf),
    (setMetadata_returns _ _ _ _ k v' Hwf),
    (setMetadata_returns _ _ _ _ k v' Hwf1),
    (setMetadata_returns _ _ _ _ k' v' Hwf1),
    (setMetadata_returns _ _ _ _ k v Hwf2).
  rewrite !write_twice. split.
  - by rewrite insert_insert_eq.
  - intros Hne. eexists _, _. split; [reflexivity |]. split; [reflexivity |].
    intros key.
    exists (default JsUndefined (<[k := v]> (<[k' := v']> m) !! key)),
      (bool_decide (is_Some (<[k := v]> (<[k' := v']> m) !! key))).
    rewrite (getMetadata_returns _ _ _ _ key Hwf12),
      (getMetadata_returns _ _ _ _ key Hwf21),
      (hasMetadata_returns _ _ _ _ key Hwf12),
      (hasMetadata_returns _ _ _ _ key Hwf21).
    by rewrite (insert_insert_ne m k k') by done.
Qed.

Lemma setMetadata_overwrites_and_commutes_witness :
  ∃ w12 w21 : World,
    (let! _ := RequestContext.setMetadata Sample.context_ref "trace" JsNull in
     RequestContext.setMetadata Sample.context_ref "role" (JsString "admin"))
      Sample.inside = Returns tt w12 ∧
    (let! _ := RequestContext.setMetadata Sample.context_ref "role"
                 (JsString "admin") in
     RequestContext.setMetadata Sample.context_ref "trace" JsNull)
      Sample.inside = Returns tt w21 ∧
    RequestContext.getMetadata Sample.context_ref "role" w12
      = Returns (JsString "admin") w12 ∧
    RequestContext.getMetadata Sample.context_ref "role" w21
      = Returns (JsString "admin") w21.
Proof.
  destruct (setMetadata_overwrites_and_commutes Sample.inside Sample.context_ref
              Sample.context_data Sample.entries "trace" "role" JsNull
              (JsString "admin"))
    as [_ Hcommute].
  - split; reflexivity.
  - destruct Hcommute as (w12 & w21 & Hrun12 & Hrun21 & Hkeys); [done |].
    exists w12, w21. split; [exact Hrun12 |]. split; [exact Hrun21 |].
    destruct (Hkeys "role") as (value & present & Hget12 & Hget21 & _ & _ & ->).
    split; [exact Hget12 | exact Hget21].
Defined.

(** X5.  Storing a value under a key that was absent and deleting that key
    again gives back the world as it was: [deleteMetadata] returns [true]
    and no trace of the entry remains. *)
Theorem set_then_delete_restores (w : World) (this : loc)
    (d : RequestContextData) (m : gmap string JsValue) (k : string) (v : JsValue) :
  RequestContext.wf_context w this d m →
  m !! k = None →
  (let! _ := RequestContext.setMetadata this k v in
   RequestContext.deleteMetadata this k) w
  = Returns true w.
Proof.
  intros Hwf Hk.
  pose proof (wf_context_write _ _ _ _ (<[k := v]> m) Hwf) as Hwf1.
  unfold bind.
  rewrite (setMetadata_returns _ _ _ _ k v Hwf),
    (deleteMetadata_returns _ _ _ _ k Hwf1).
  rewrite write_twice, lookup_insert_eq, delete_insert_eq, (delete_id _ _ Hk).
  destruct Hwf as [_ Hmap]. rewrite (insert_id _ _ _ Hmap).
  by rewrite set_heap_same.
Qed.

Lemma set_then_delete_restores_witness :
  (let! _ := RequestContext.setMetadata Sample.context_ref "trace" (JsNumber 7) in
   RequestContext.deleteMetadata Sample.context_ref "trace") Sample.inside
  = Returns true Sample.inside.
Proof.
  apply (set_then_delete_restores Sample.inside Sample.context_ref
           Sample.context_data Sample.entries).
  - split; reflexivity.
  - reflexivity.
Defined.

(** X6.  [deleteMetadata(k)] removes the entry of [k] only: every other
    key reads as before, and a second [deleteMetadata(k)] returns [false]
    and changes nothing. *)
Theorem deleteMetadata_is_local (w : World) (this : loc)
    (d : RequestContextData) (m : gmap string JsValue) (k : string) :
  RequestContext.wf_context w this d m →
  ∃ (w1 : World) (deleted : bool),
    RequestContext.deleteMetadata this k w = Returns deleted w1 ∧
    (∀ other : string, other ≠ k →
       RequestContext.getMetadata this other w1
         = Returns (default JsUndefined (m !! other)) w1 ∧
       RequestContext.hasMetadata this other w1
         = Returns (bool_decide (is_Some (m !! other))) w1) ∧
    RequestContext.deleteMetadata this k w1 = Returns false w1.
Proof.
  intros Hwf.
  pose proof (wf_context_write _ _ _ _ (delete k m) Hwf) as Hwf1.
  eexists _, _. split; [apply (deleteMetadata_returns _ _ _ _ k Hwf) |]. split.
  - intros other Hne.
    rewrite (getMetadata_returns _ _ _ _ other Hwf1),
      (hasMetadata_returns _ _ _ _ other Hwf1).
    by rewrite lookup_delete_ne.
  - rewrite (deleteMetadata_returns _ _ _ _ k Hwf1).
    by rewrite write_twice, lookup_delete_eq, delete_delete_eq.
Qed.

Lemma deleteMetadata_is_local_witness :
  ∃ (w1 : World) (deleted : bool),
    RequestContext.deleteMetadata Sample.context_ref "trace" Sample.inside
      = Returns deleted w1 ∧
    RequestContext.getMetadata Sample.context_ref "user" w1
      = Returns (JsString "ada") w1.
Proof.
  destruct (deleteMetadata_is_local Sample.inside Sample.context_ref
              Sample.context_data Sample.entries "trace")
    as (w1 & deleted & Hdel & Hother & _).
  - split; reflexivity.
  - exists w1, deleted. split; [exact Hdel |].
    by apply (Hother "user").
Defined.

(** ** Construction and separation of contexts *)

(** The constructor allocates at references that were not in use and
    leaves what existed as it was. *)
Lemma new_allocates_fresh (w : World) (a r s c : loc) (rid : string) (now : Z) :
  ∃ (this : loc) (w0 : World),
    RequestContext.new a r s c rid now w = Returns this w0 ∧
    heap w !! this = None ∧
    (∀ l : loc, is_Some (heap w !! l) → heap w0 !! l = heap w !! l) ∧
    current_store w0 = current_store w ∧
    console w0 = console w.
Proof.
  destruct (new_returns a r s c rid now w)
    as (this & w0 & Hnew & _ & Hstore & Hconsole & Hframe).
  assert (Hfresh_this : heap w !! this = None).
  { unfold RequestContext.new, bind, alloc in Hnew. simpl in Hnew.
    injection Hnew as <- _.
    pose proof (is_fresh (dom (<[fresh (dom (heap w)) := MapObject ∅]> (heap w))))
      as Hnotin.
    apply not_elem_of_dom, lookup_insert_None in Hnotin. by destruct Hnotin. }
  exists this, w0. split; [exact Hnew |]. split; [exact Hfresh_this |].
  split; [| done].
  intros l Hl. apply Hframe; [done |]. intros ->.
  rewrite Hfresh_this in Hl. by destruct Hl.
Qed.

(** X2.  The constructor makes two new objects, the context and its
    [Map], at references that were not in use; the store starts empty
    ([hasMetadata] is [false] and [getMetadata] is [undefined] for every
    key); [elapsedTime] read at the clock reading of the construction is
    0; and the objects that existed, the binding of the storage and the
    console are as they were. *)
Theorem new_context_is_fresh_and_empty (w : World) (a r s c : loc)
    (rid : string) (now : Z) :
  ∃ (this : loc) (d : RequestContextData) (w0 : World),
    RequestContext.new a r s c rid now w = Returns this w0 ∧
    heap w !! this = None ∧
    heap w !! metadata d = None ∧
    RequestContext.wf_context w0 this d ∅ ∧
    (∀ key : string,
       RequestContext.hasMetadata this key w0 = Returns false w0 ∧
       RequestContext.getMetadata this key w0 = Returns JsUndefined w0) ∧
    RequestContext.elapsedTime now this w0 = Returns 0%Z w0 ∧
    (∀ l : loc, is_Some (heap w !! l) → heap w0 !! l = heap w !! l) ∧
    current_store w0 = current_store w ∧
    console w0 = console w.
Proof.
  destruct (new_returns a r s c rid now w) as (this & w0 & Hnew & Hwf & _).
  destruct (new_allocates_fresh w a r s c rid now)
    as (this' & w0' & Hnew' & Hfresh & Hrest).
  rewrite Hnew in Hnew'. injection Hnew' as <- <-.
  match type of Hwf with
  | RequestContext.wf_context _ _ ?d0 _ => exists this, d0, w0
  end.
  split; [exact Hnew |]. split; [exact Hfresh |].
  split; [apply not_elem_of_dom, is_fresh |].
  split; [exact Hwf |]. split; [| split; [| exact Hrest]].
  - intros key.
    rewrite (hasMetadata_returns _ _ _ _ key Hwf),
      (getMetadata_returns _ _ _ _ key Hwf).
    by rewrite lookup_empty.
  - destruct Hwf as [Hd _]. unfold RequestContext.elapsedTime.
    rewrite (field_returns _ _ _ _ Hd). simpl. f_equal. lia.
Qed.

(** X3.  Two contexts with different [Map]s do not interfere: after any
    sequence of operations on the first, the second has the same record
    and the same entries, so its [getMetadata] and [hasMetadata] return
    what they returned before. *)
Theorem contexts_do_not_interfere (w : World)
    (this1 : loc) (d1 : RequestContextData) (m1 : gmap string JsValue)
    (this2 : loc) (d2 : RequestContextData) (m2 : gmap string JsValue)
    (os : list Caller.Operation) :
  RequestContext.wf_context w this1 d1 m1 →
  RequestContext.wf_context w this2 d2 m2 →
  metadata d1 ≠ metadata d2 →
  ∃ w' : World,
    Caller.invoke_all this1 os w = Returns tt w' ∧
    RequestContext.wf_context w' this2 d2 m2 ∧
    ∀ key : string,
      RequestContext.getMetadata this2 key w'
        = Returns (default JsUndefined (m2 !! key)) w' ∧
      RequestContext.hasMetadata this2 key w'
        = Returns (bool_decide (is_Some (m2 !! key))) w'.
Proof.
  intros Hwf1 Hwf2 Hne.
  destruct (invoke_all_frame os _ _ _ _ Hwf1)
    as (w' & m1' & Hrun & _ & _ & _ & Hframe).
  assert (Hwf2' : RequestContext.wf_context w' this2 d2 m2).
  { destruct Hwf1 as [_ Hmap1]. destruct Hwf2 as [Hthis2 Hmap2]. split.
    - rewrite Hframe; [done | by eexists | intros ->; congruence].
    - rewrite Hframe; [done | by eexists | done]. }
  exists w'. split; [exact Hrun |]. split; [exact Hwf2' |]. intros key.
  by rewrite (getMetadata_returns _ _ _ _ key Hwf2'),
    (hasMetadata_returns _ _ _ _ key Hwf2').
Qed.

Lemma contexts_do_not_interfere_witness :
  ∃ w' : World,
    Caller.invoke_all Sample.other_context_ref
      [Caller.do_setMetadata "user" (JsString "eve"); Caller.do_clearMetadata]
      Sample.with_sub_task
    = Returns tt w' ∧
    RequestContext.getMetadata Sample.context_ref "user" w'
      = Returns (JsString "ada") w'.
Proof.
  destruct (contexts_do_not_interfere Sample.with_sub_task
              Sample.other_context_ref Sample.other_context_data ∅
              Sample.context_ref Sample.context_data Sample.entries
              [Caller.do_setMetadata "user" (JsString "eve");
               Caller.do_clearMetadata])
    as (w' & Hrun & _ & Hkeys).
  - split; reflexivity.
  - split; reflexivity.
  - done.
  - exists w'. split; [exact Hrun | apply (Hkeys "user")].
Defined.

(** X7.  The object returned by [getAllMetadata()] keeps the entries of
    the time of the call: no later operation on the context, in any
    number, changes it. *)
Theorem snapshot_is_stable (w : World) (this : loc) (d : RequestContextData)
    (m : gmap string JsValue) (os : list Caller.Operation) :
  RequestContext.wf_context w this d m →
  ∃ (snapshot : loc) (w1 w2 : World),
    RequestContext.getAllMetadata this w = Returns snapshot w1 ∧
    Caller.invoke_all this os w1 = Returns tt w2 ∧
    heap w2 !! snapshot = Some (PlainObject m).
Proof.
  intros Hwf.
  pose proof (wf_context_alloc _ _ _ _ (PlainObject m) Hwf) as Hwf1.
  destruct (invoke_all_frame os _ _ _ _ Hwf1)
    as (w2 & m' & Hrun & _ & _ & _ & Hframe).
  eexists _, _, w2. split; [apply (getAllMetadata_returns _ _ _ _ Hwf) |].
  split; [exact Hrun |].
  rewrite Hframe; simpl.
  - by rewrite lookup_insert_eq.
  - rewrite lookup_insert_eq. by eexists.
  - intros Heq. destruct Hwf as [_ Hmap].
    apply (is_fresh (dom (heap w))). rewrite Heq. apply elem_of_dom. by eexists.
Qed.

Lemma snapshot_is_stable_witness :
  ∃ (snapshot : loc) (w1 w2 : World),
    RequestContext.getAllMetadata Sample.context_ref Sample.inside
      = Returns snapshot w1 ∧
    Caller.invoke_all Sample.context_ref
      [Caller.do_setMetadata "user" JsNull; Caller.do_clearMetadata] w1
      = Returns tt w2 ∧
    heap w2 !! snapshot = Some (PlainObject Sample.entries).
Proof.
  apply (snapshot_is_stable Sample.inside Sample.context_ref
           Sample.context_data Sample.entries).
  split; reflexivity.
Defined.

(** One operation that is not [setMetadata], [deleteMetadata] or
    [clearMetadata] leaves the entries of the store as they are. *)
Lemma invoke_reader (o : Caller.Operation) w this d m :
  RequestContext.wf_context w this d m →
  Usage.writes_store o = false →
  ∃ w', Caller.invoke this o w = Returns tt w' ∧
        RequestContext.wf_context w' this d m.
Proof.
  intros Hwf Hreader. pose proof Hwf as [Hthis Hmap].
  destruct o; try discriminate Hreader; unfold Caller.invoke, Caller.discard;
    try (unfold RequestContext.app, RequestContext.req, RequestContext.res,
           RequestContext.config, RequestContext.logger,
           RequestContext.requestId, RequestContext.startTime,
           RequestContext.elapsedTime;
         unfold bind at 1; rewrite (field_returns _ _ _ _ Hthis);
         by exists w).
  - unfold bind at 1. rewrite (getMetadata_returns _ _ _ _ key Hwf). by exists w.
  - unfold bind at 1. rewrite (hasMetadata_returns _ _ _ _ key Hwf). by exists w.
  - unfold bind at 1. rewrite (getAllMetadata_returns _ _ _ _ Hwf).
    eexists. split; [done |]. apply (wf_context_alloc _ _ _ _ _ Hwf).
Qed.

(** X8.  The accessors, [elapsedTime], [getMetadata], [hasMetadata] and
    [getAllMetadata] never write to the store: after any sequence of them
    the context holds the same entries. *)
Theorem readers_keep_the_store (w : World) (this : loc) (d : RequestContextData)
    (m : gmap string JsValue) (os : list Caller.Operation) :
  RequestContext.wf_context w this d m →
  Forall (λ o, Usage.writes_store o = false) os →
  ∃ w' : World,
    Caller.invoke_all this os w = Returns tt w' ∧
    RequestContext.wf_context w' this d m.
Proof.
  intros Hwf Hreaders. revert w Hwf.
  induction Hreaders as [| o os Ho _ IH]; intros w Hwf.
  - by exists w.
  - destruct (invoke_reader o w this d m Hwf Ho) as (w1 & Hrun & Hwf1).
    destruct (IH w1 Hwf1) as (w2 & Hrun' & Hwf2).
    exists w2. split; [| done]. simpl. unfold bind. by rewrite Hrun.
Qed.

Lemma readers_keep_the_store_witness :
  ∃ w' : World,
    Caller.invoke_all Sample.context_ref
      [Caller.do_getAllMetadata; Caller.do_getMetadata "user";
       Caller.get_elapsedTime 1700000000009] Sample.inside
    = Returns tt w' ∧
    RequestContext.wf_context w' Sample.context_ref Sample.context_data
      Sample.entries.
Proof.
  apply (readers_keep_the_store Sample.inside Sample.context_ref
           Sample.context_data Sample.entries).
  - split; reflexivity.
  - repeat first [apply List.Forall_nil | apply List.Forall_cons]; reflexivity.
Defined.

(** ** Generated identifiers *)

Lemma number_to_string_inj (n n' : Z) :
  number_to_string n = number_to_string n' → n = n'.
Proof.
  unfold number_to_string. intros H.
  assert (Hnorm : ∀ z, Z.to_int z ≠ Decimal.Pos Decimal.Nil ∧
                       Z.to_int z ≠ Decimal.Neg Decimal.Nil).
  { intros [| p | p]; simpl; split; try done; intros [= Hp];
      by apply (Unsigned.to_uint_nonnil p). }
  apply DecimalZ.to_int_inj.
  destruct (Hnorm n) as [H1 H2]. destruct (Hnorm n') as [H1' H2'].
  pose proof (NilZero.isi _ H1 H2) as Hn.
  pose proof (NilZero.isi _ H1' H2') as Hn'.
  rewrite H in Hn. congruence.
Qed.

(** A run of digits followed by [_] can be cut in one way only. *)
Lemma digits_then_underscore (d d' rest rest' : string) :
  IdentifierFormat.all_chars IdentifierFormat.is_digit d = true →
  IdentifierFormat.all_chars IdentifierFormat.is_digit d' = true →
  d +:+ String "_" rest = d' +:+ String "_" rest' →
  d = d' ∧ rest = rest'.
Proof.
  revert d'. induction d as [| c d IH]; intros [| c' d']; simpl.
  - intros _ _ [= ->]. done.
  - intros _ [Hc _]%andb_true_iff [= <- _]. done.
  - intros [Hc _]%andb_true_iff _ [= -> _]. done.
  - intros [_ Hd]%andb_true_iff [_ Hd']%andb_true_iff [= -> Heq].
    destruct (IH d' Hd Hd' Heq) as [-> ->]. done.
Qed.

(** X9.  Two generated identifiers are equal exactly when they were made
    from the same clock reading and from random numbers with the same
    characters 2 to 10: identifiers of different milliseconds always
    differ. *)
Theorem generateRequestId_injective (now now' : Z) (random36 random36' : string) :
  (0 ≤ now)%Z → (0 ≤ now')%Z →
  AsyncContext.generateRequestId now random36
    = AsyncContext.generateRequestId now' random36'
  ↔ now = now' ∧ substring 2 11 random36 = substring 2 11 random36'.
Proof.
  intros Hnow Hnow'. split.
  - unfold AsyncContext.generateRequestId. intros H.
    apply String.app_inj in H.
    destruct (number_to_string_digits now Hnow) as (c & s & Heq & Hd).
    destruct (number_to_string_digits now' Hnow') as (c' & s' & Heq' & Hd').
    rewrite <- Heq in Hd. rewrite <- Heq' in Hd'.
    destruct (digits_then_underscore _ _ _ _ Hd Hd' H) as [Hnum Hsuffix].
    split; [by apply number_to_string_inj | done].
  - intros [-> Hsuffix]. unfold AsyncContext.generateRequestId. by rewrite Hsuffix.
Qed.

Lemma generateRequestId_injective_witness :
  AsyncContext.generateRequestId 1700000000000 "0.6n3h4p8y0km"
    = AsyncContext.generateRequestId 1700000000001 "0.6n3h4p8y0km"
  ↔ 1700000000000%Z = 1700000000001%Z ∧
    substring 2 11 "0.6n3h4p8y0km" = substring 2 11 "0.6n3h4p8y0km".
Proof.
  apply (generateRequestId_injective 1700000000000 1700000000001); lia.
Defined.

(** ** The handler of [asyncContext] *)

(** The world in which the handler starts [next]: a new context [ctx]
    built from the request, bound as current. *)
Lemma handler_starts (config req res : loc) (r : Request)
    (e : AsyncContext.Readings) (w : World) :
  heap w !! req = Some (RequestObject r) →
  ∃ (ctx : loc) (w0 : World),
    (∀ next : Eff unit,
       AsyncContext.handler config e req res next w
       = AsyncContext.runInContext ctx next w0) ∧
    RequestContext.wf_context w0 ctx
      {| app := req_app r; req := req; res := res; config := config;
         logger := Logger.createLogger (AsyncContext.chosen_requestId r e) req;
         requestId := AsyncContext.chosen_requestId r e;
         startTime := AsyncContext.start_now e;
         metadata := fresh (dom (heap w)) |} ∅ ∧
    heap w !! ctx = None ∧
    (∀ l : loc, is_Some (heap w !! l) → heap w0 !! l = heap w !! l) ∧
    current_store w0 = current_store w ∧
    console w0 = console w.
Proof.
  intros Hreq.
  destruct (new_returns (req_app r) req res config
              (AsyncContext.chosen_requestId r e) (AsyncContext.start_now e) w)
    as (ctx & w0 & Hnew & Hwf & _).
  destruct (new_allocates_fresh w (req_app r) req res config
              (AsyncContext.chosen_requestId r e) (AsyncContext.start_now e))
    as (ctx' & w0' & Hnew' & Hfresh & Hframe & Hstore & Hconsole).
  rewrite Hnew in Hnew'. injection Hnew' as <- <-.
  exists ctx, w0. split; [| done].
  intros next. unfold AsyncContext.handler, bind, read_cell.
  rewrite Hreq. by rewrite Hnew.
Qed.

Lemma chosen_requestId_not_empty (r : Request) (e : AsyncContext.Readings) :
  AsyncContext.chosen_requestId r e ≠ "".
Proof.
  unfold AsyncContext.chosen_requestId, or_else.
  destruct (headers r !! "x-request-id") as [h |]; [| done].
  by destruct (String.eqb_spec h "").
Qed.

(** X10.  During [next] the five global accessors return what the handler
    received: [$app()] is [req.app], [$req()] and [$res()] are the request
    and the response, [$config()] is the configuration given to
    [asyncContext], and [$logger()] is the logger made from the identifier
    of the request and the request. *)
Theorem handler_provides_accessors (config req res : loc) (r : Request)
    (e : AsyncContext.Readings) (w : World) :
  heap w !! req = Some (RequestObject r) →
  ∃ (ctx : loc) (w0 : World),
    (∀ next : Eff unit,
       AsyncContext.handler config e req res next w
       = AsyncContext.runInContext ctx next w0) ∧
    let during := set_store (Some ctx) w0 in
    Globals.dollar_app during = Returns (req_app r) during ∧
    Globals.dollar_req during = Returns req during ∧
    Globals.dollar_res during = Returns res during ∧
    Globals.dollar_config during = Returns config during ∧
    Globals.dollar_logger during
      = Returns (Logger.createLogger (AsyncContext.chosen_requestId r e) req)
          during.
Proof.
  intros Hreq.
  destruct (handler_starts config req res r e w Hreq)
    as (ctx & w0 & Hrun & [Hd _] & _).
  exists ctx, w0. split; [exact Hrun |].
  apply (accessors_inside_context (set_store (Some ctx) w0) ctx _ eq_refl Hd).
Qed.

Lemma handler_provides_accessors_witness :
  ∃ (ctx : loc) (w0 : World),
    (∀ next : Eff unit,
       AsyncContext.handler Sample.config_ref Sample.first_readings
         Sample.req_ref Sample.res_ref next Sample.outside
       = AsyncContext.runInContext ctx next w0) ∧
    Globals.dollar_config (set_store (Some ctx) w0)
      = Returns Sample.config_ref (set_store (Some ctx) w0).
Proof.
  destruct (handler_provides_accessors Sample.config_ref Sample.req_ref
              Sample.res_ref Sample.request Sample.first_readings Sample.outside
              eq_refl)
    as (ctx & w0 & Hrun & _ & _ & _ & Hconfig & _).
  by exists ctx, w0.
Defined.

(** X11.  The handler is a scoping wrapper: whatever [next] does, the
    binding that was in force before the handler is in force after it; a
    value returned by [next] is returned, and an error thrown by [next] is
    thrown again with the same message.  When no context was bound before,
    [$req()] called after the handler throws its absence error. *)
Theorem handler_restores_and_propagates (config req res : loc) (r : Request)
    (e : AsyncContext.Readings) (w : World) :
  heap w !! req = Some (RequestObject r) →
  ∃ during : World,
    (∀ next : Eff unit,
       AsyncContext.handler config e req res next w
       = match next during with
         | Returns v w' => Returns v (set_store (current_store w) w')
         | Throws message w' => Throws message (set_store (current_store w) w')
         | Stuck => Stuck
         end) ∧
    (∀ (next : Eff unit) (w' : World),
       current_store w = None →
       next during = Returns tt w' →
       (let! _ := AsyncContext.handler config e req res next in
        Globals.dollar_req) w
       = Throws "$req() can only be called within a request context"
           (set_store None w')).
Proof.
  intros Hreq.
  destruct (handler_starts config req res r e w Hreq)
    as (ctx & w0 & Hrun & _ & _ & _ & Hstore & _).
  exists (set_store (Some ctx) w0).
  assert (Hshape : ∀ next : Eff unit,
            AsyncContext.handler config e req res next w
            = match next (set_store (Some ctx) w0) with
              | Returns v w' => Returns v (set_store (current_store w) w')
              | Throws message w' =>
                  Throws message (set_store (current_store w) w')
              | Stuck => Stuck
              end).
  { intros next. rewrite Hrun.
    unfold AsyncContext.runInContext, AsyncLocalStorage.run.
    by rewrite Hstore. }
  split; [exact Hshape |].
  intros next w' Hnone Hnext. unfold bind at 1.
  rewrite Hshape, Hnext, Hnone.
  apply (accessors_outside_context (set_store None w') eq_refl).
Qed.

Lemma handler_restores_and_propagates_witness :
  ∃ during : World,
    AsyncContext.handler Sample.config_ref Sample.first_readings
      Sample.req_ref Sample.res_ref Usage.failing_step Sample.outside
    = Throws "database unavailable"
        (set_store (current_store Sample.outside) during).
Proof.
  destruct (handler_restores_and_propagates Sample.config_ref Sample.req_ref
              Sample.res_ref Sample.request Sample.first_readings Sample.outside
              eq_refl)
    as (during & Hshape & _).
  exists during. exact (Hshape Usage.failing_step).
Defined.

(** X12.  The context that the handler binds is a new object with an
    empty store, an identifier that is not the empty string and the clock
    reading of its construction as [startTime]; building it changes no
    object that existed (the request, the response, the application and
    the configuration among them) and writes nothing to the console. *)
Theorem handler_context_is_new (config req res : loc) (r : Request)
    (e : AsyncContext.Readings) (w : World) :
  heap w !! req = Some (RequestObject r) →
  ∃ (ctx : loc) (d : RequestContextData) (w0 : World),
    (∀ next : Eff unit,
       AsyncContext.handler config e req res next w
       = AsyncContext.runInContext ctx next w0) ∧
    heap w !! ctx = None ∧
    RequestContext.wf_context w0 ctx d ∅ ∧
    requestId d ≠ "" ∧
    startTime d = AsyncContext.start_now e ∧
    (∀ l : loc, is_Some (heap w !! l) → heap w0 !! l = heap w !! l) ∧
    console w0 = console w.
Proof.
  intros Hreq.
  destruct (handler_starts config req res r e w Hreq)
    as (ctx & w0 & Hrun & Hwf & Hfresh & Hframe & _ & Hconsole).
  eexists ctx, _, w0. split; [exact Hrun |]. split; [exact Hfresh |].
  split; [exact Hwf |]. split; [apply chosen_requestId_not_empty |]. done.
Qed.

Lemma handler_context_is_new_witness :
  ∃ (ctx : loc) (d : RequestContextData) (w0 : World),
    heap Sample.outside !! ctx = None ∧
    RequestContext.wf_context w0 ctx d ∅ ∧
    heap w0 !! Sample.req_ref = Some (RequestObject Sample.request).
Proof.
  destruct (handler_context_is_new Sample.config_ref Sample.req_ref
              Sample.res_ref Sample.request Sample.first_readings Sample.outside
              eq_refl)
    as (ctx & d & w0 & _ & Hfresh & Hwf & _ & _ & Hframe & _).
  exists ctx, d, w0. split; [exact Hfresh |]. split; [exact Hwf |].
  rewrite Hframe; [reflexivity | by eexists].
Defined.

(** ** The logger of a context *)

(** X13.  A step that calls [$logger().info(message, meta)] during the
    handling of a request, with an attachment that can be serialised,
    makes one call [console.info] whose line is
    [[<timestamp>] [INFO] [<id>] <message>], [<id>] being the identifier
    that the handler chose for the request (the [x-request-id] header or a
    generated one); the record carries that identifier and the url of the
    request when the attachment does not override them.  The binding found
    by the handler is in force afterwards. *)
Theorem handler_logger_carries_identifier (config req res : loc) (r : Request)
    (e : AsyncContext.Readings) (timestamp message : string)
    (meta : option (gmap string JsValue)) (w : World) :
  heap w !! req = Some (RequestObject r) →
  serialisable_record (heap w) (default ∅ meta) = true →
  ∃ (c : ConsoleCall) (w' : World),
    AsyncContext.handler config e req res
      (let! log := Globals.dollar_logger in
       Logger.info log timestamp message meta) w
    = Returns tt w' ∧
    console w' = c :: console w ∧
    current_store w' = current_store w ∧
    sink c = console_info ∧
    logMessage c
      = "[" +:+ timestamp +:+ "] [INFO] ["
          +:+ AsyncContext.chosen_requestId r e +:+ "] " +:+ message ∧
    (default ∅ meta !! "requestId" = None →
       logData c !! "requestId"
       = Some (JsString (AsyncContext.chosen_requestId r e))) ∧
    (default ∅ meta !! "url" = None →
       logData c !! "url" = Some (JsString (url r))).
Proof.
  intros Hreq Hmeta.
  destruct (handler_starts config req res r e w Hreq)
    as (ctx & w0 & Hrun & [Hd _] & _ & Hframe & Hstore & Hconsole).
  assert (Hgrown : heap w ⊆ heap w0).
  { apply map_subseteq_spec. intros l c Hl. rewrite Hframe; [done | by eexists]. }
  pose proof (serialisable_record_mono _ _ _ Hgrown Hmeta) as Hmeta'.
  set (during := set_store (Some ctx) w0).
  destruct (accessors_inside_context during ctx _ eq_refl Hd)
    as (_ & _ & _ & _ & Hlogger).
  assert (Hreq' : heap during !! req = Some (RequestObject r)).
  { simpl. rewrite Hframe; [done | by eexists]. }
  destruct (enriched_record (AsyncContext.chosen_requestId r e) r timestamp meta)
    as (_ & _ & _ & Hid & _ & Hurl & _).
  unfold during in *. clear during.
  eexists _, _. split.
  - rewrite Hrun. unfold AsyncContext.runInContext, AsyncLocalStorage.run.
    unfold bind at 1. rewrite Hlogger. simpl logger. unfold Logger.info.
    rewrite (logWithContext_returns
               (Logger.createLogger (AsyncContext.chosen_requestId r e) req) r
               _ _ _ _ _ Hreq' Hmeta').
    reflexivity.
  - simpl. rewrite Hconsole, Hstore. repeat (split; [reflexivity |]).
    split; [exact Hid | exact Hurl].
Qed.

Lemma handler_logger_carries_identifier_witness :
  ∃ (c : ConsoleCall) (w' : World),
    AsyncContext.handler Sample.config_ref Sample.first_readings
      Sample.req_ref Sample.res_ref
      (let! log := Globals.dollar_logger in
       Logger.info log "2023-11-14T22:13:20.000Z" "hello" None) Sample.outside
    = Returns tt w' ∧
    console w' = c :: console Sample.outside ∧
    logMessage c = "[2023-11-14T22:13:20.000Z] [INFO] [abc123] hello".
Proof.
  destruct (handler_logger_carries_identifier Sample.config_ref Sample.req_ref
              Sample.res_ref Sample.request Sample.first_readings
              "2023-11-14T22:13:20.000Z" "hello" None Sample.outside)
    as (c & w' & Hrun & Hconsole & _ & _ & Hline & _);
    [reflexivity | reflexivity |].
  exists c, w'. split; [exact Hrun |]. split; [exact Hconsole | exact Hline].
Defined.

(** X14.  A logger reads the request when it is called, not when it is
    made: the same logger emits a record with the url of the request as it
    is at the call, and once the request object has been given another
    content (as a router does with [url]) it emits the method, the url and
    the address of the new content. *)
Theorem logger_reads_request_at_call (requestId : string) (req : loc)
    (r r' : Request) (timestamp message : string) (w : World) :
  heap w !! req = Some (RequestObject r) →
  (∃ before : ConsoleCall,
     Logger.info (Logger.createLogger requestId req) timestamp message None w
     = Returns tt (push_console before w) ∧
     logData before !! "url" = Some (JsString (url r))) ∧
  (∃ after : ConsoleCall,
     (let! _ := write_cell req (RequestObject r') in
      Logger.info (Logger.createLogger requestId req) timestamp message None) w
     = Returns tt
         (push_console after (set_heap (<[req := RequestObject r']> (heap w)) w)) ∧
     logData after !! "method" = Some (JsString (method r')) ∧
     logData after !! "url" = Some (JsString (url r')) ∧
     logData after !! "ip"
       = JsString <$> or_else Some (ip r') (socket_remoteAddress r')).
Proof.
  intros Hreq. split.
  - destruct (enriched_record requestId r timestamp None)
      as (_ & _ & _ & _ & _ & Hurl & _).
    eexists. split.
    + unfold Logger.info.
      by rewrite (logWithContext_returns (Logger.createLogger requestId req) r)
        by (done || apply serialisable_record_empty).
    + simpl. by apply Hurl.
  - destruct (enriched_record requestId r' timestamp None)
      as (_ & _ & _ & _ & Hmethod & Hurl & Hip & _).
    eexists. split.
    + unfold bind, write_cell, Logger.info.
      rewrite (logWithContext_returns (Logger.createLogger requestId req) r').
      * reflexivity.
      * simpl. by rewrite lookup_insert_eq.
      * apply serialisable_record_empty.
    + simpl. split; [by apply Hmethod |]. split; [by apply Hurl | by apply Hip].
Qed.

Lemma logger_reads_request_at_call_witness :
  (∃ before : ConsoleCall,
     Logger.info (Logger.createLogger "abc123" Sample.req_ref)
       "2023-11-14T22:13:20.000Z" "hello" None Sample.outside
     = Returns tt (push_console before Sample.outside) ∧
     logData before !! "url" = Some (JsString "/users")) ∧
  (∃ after : ConsoleCall,
     (let! _ := write_cell Sample.req_ref (RequestObject Usage.rewritten_request) in
      Logger.info (Logger.createLogger "abc123" Sample.req_ref)
        "2023-11-14T22:13:20.000Z" "hello" None) Sample.outside
     = Returns tt
         (push_console after
            (set_heap (<[Sample.req_ref := RequestObject Usage.rewritten_request]>
                         (heap Sample.outside)) Sample.outside)) ∧
     logData after !! "url" = Some (JsString "/")).
Proof.
  destruct (logger_reads_request_at_call "abc123" Sample.req_ref Sample.request
              Usage.rewritten_request "2023-11-14T22:13:20.000Z" "hello"
              Sample.outside eq_refl)
    as [Hbefore (after & Hrun & _ & Hurl & _)].
  split; [exact Hbefore |].
  exists after. split; [exact Hrun | exact Hurl].
Defined.

(** ** Accessors in nested scopes *)

(** X15.  The global accessors follow the nesting of [runInContext]:
    inside an inner scope [$req()] and [$logger()] are those of the inner
    context, and after the inner scope they are again those of the outer
    context. *)
Theorem accessors_follow_innermost_scope (w : World)
    (outer : loc) (d_outer : RequestContextData)
    (inner : loc) (d_inner : RequestContextData) :
  heap w !! outer = Some (ContextObject d_outer) →
  heap w !! inner = Some (ContextObject d_inner) →
  AsyncContext.runInContext outer
    (let! seen_inside :=
       AsyncContext.runInContext inner
         (let! request := Globals.dollar_req in
          let! log := Globals.dollar_logger in
          ret (request, log)) in
     let! request := Globals.dollar_req in
     let! log := Globals.dollar_logger in
     ret (seen_inside, (request, log))) w
  = Returns ((req d_inner, logger d_inner), (req d_outer, logger d_outer)) w.
Proof.
  intros Houter Hinner.
  destruct (accessors_inside_context (set_store (Some inner) w) inner d_inner
              eq_refl Hinner) as (_ & Hreq_in & _ & _ & Hlog_in).
  destruct (accessors_inside_context (set_store (Some outer) w) outer d_outer
              eq_refl Houter) as (_ & Hreq_out & _ & _ & Hlog_out).
  unfold AsyncContext.runInContext, AsyncLocalStorage.run.
  unfold bind at 1. simpl current_store. rewrite set_store_twice.
  unfold bind at 1. rewrite Hreq_in. unfold bind at 1. rewrite Hlog_in.
  unfold ret at 1. rewrite set_store_twice.
  unfold bind at 1. rewrite Hreq_out. unfold bind at 1. rewrite Hlog_out.
  unfold ret. rewrite set_store_twice. by rewrite set_store_same.
Qed.

Lemma accessors_follow_innermost_scope_witness :
  AsyncContext.runInContext Sample.context_ref
    (let! seen_inside :=
       AsyncContext.runInContext Sample.other_context_ref
         (let! request := Globals.dollar_req in
          let! log := Globals.dollar_logger in
          ret (request, log)) in
     let! request := Globals.dollar_req in
     let! log := Globals.dollar_logger in
     ret (seen_inside, (request, log))) Sample.with_sub_task
  = Returns
      ((Sample.req_ref, Logger.createLogger "sub-task" Sample.req_ref),
       (Sample.req_ref, Logger.createLogger "abc123" Sample.req_ref))
      Sample.with_sub_task.
Proof.
  apply (accessors_follow_innermost_scope Sample.with_sub_task
           Sample.context_ref Sample.context_data
           Sample.other_context_ref Sample.other_context_data);
    reflexivity.
Defined.

(** ** Snapshots and writes *)

(** X16.  A snapshot shows the writes made so far: taken after
    [setMetadata(k, v)] it is a new object whose property [k] is [v], also
    when [v] is [undefined], and whose other properties are the entries
    that the store had. *)
Theorem snapshot_shows_writes (w : World) (this : loc) (d : RequestContextData)
    (m : gmap string JsValue) (k : string) (v : JsValue) :
  RequestContext.wf_context w this d m →
  ∃ (snapshot : loc) (w' : World) (props : gmap string JsValue),
    (let! _ := RequestContext.setMetadata this k v in
     RequestContext.getAllMetadata this) w
    = Returns snapshot w' ∧
    heap w !! snapshot = None ∧
    heap w' !! snapshot = Some (PlainObject props) ∧
    props !! k = Some v ∧
    ∀ other : string, other ≠ k → props !! other = m !! other.
Proof.
  intros Hwf.
  pose proof (wf_context_write _ _ _ _ (<[k := v]> m) Hwf) as Hwf1.
  eexists _, _, (<[k := v]> m). split; [| split; [| split; [| split]]].
  - unfold bind. rewrite (setMetadata_returns _ _ _ _ k v Hwf).
    apply (getAllMetadata_returns _ _ _ _ Hwf1).
  - simpl.
    pose proof (is_fresh (dom (<[metadata d := MapObject (<[k := v]> m)]> (heap w))))
      as Hnotin.
    apply not_elem_of_dom, lookup_insert_None in Hnotin. by destruct Hnotin.
  - simpl. by rewrite lookup_insert_eq.
  - by rewrite lookup_insert_eq.
  - intros other Hne. by rewrite lookup_insert_ne.
Qed.

Lemma snapshot_shows_writes_witness :
  ∃ (snapshot : loc) (w' : World) (props : gmap string JsValue),
    (let! _ := RequestContext.setMetadata Sample.context_ref "trace" JsUndefined in
     RequestContext.getAllMetadata Sample.context_ref) Sample.inside
    = Returns snapshot w' ∧
    heap w' !! snapshot = Some (PlainObject props) ∧
    props !! "trace" = Some JsUndefined ∧
    props !! "user" = Some (JsString "ada").
Proof.
  destruct (snapshot_shows_writes Sample.inside Sample.context_ref
              Sample.context_data Sample.entries "trace" JsUndefined)
    as (snapshot & w' & props & Hrun & _ & Hsnap & Hk & Hother).
  - split; reflexivity.
  - exists snapshot, w', props. split; [exact Hrun |]. split; [exact Hsnap |].
    split; [exact Hk |]. by rewrite Hother.
Defined.
